(** * APK-Analyzer: the static-analysis and risk-scoring core of [app.py]

    A shallow embedding of [to_jsonable] and [analyze_apk] and the
    properties the specification states about them, followed by the
    helpers [allowed_file] and [sha256_file], the [upload] view, and
    further properties read off the code.

    Conventions of the embedding.
    - A Python [str] is the list of its code points ([pystr]); comparison,
      [startswith], [in] and the regular expression work on code points.
    - A Python call that may raise is a [result]: [Ret v] when it returns
      [v], [Raise e] when it raises the exception [e].  Only exceptions
      derived from [Exception] are modelled, and an exception is carried
      as the text [str(e)] gives for it.
    - The androguard [APK] object belongs to a library outside the
      repository; it is modelled by the outcome of each method the code
      calls on it. *)

From Stdlib Require Import String Ascii.
From stdpp Require Import base decidable option list sorting gmap.

Local Open Scope Z_scope.
Set Warnings "-register-all".

(** ** Python strings *)

Definition pystr := list N.

(** Code points of an ASCII literal of the source. *)
Definition py (s : string) : pystr :=
  (λ c, N_of_ascii c) <$> list_ascii_of_string s.

(** [str.__le__]: lexicographic comparison of code points, a proper prefix
    being smaller. *)
Fixpoint str_leb (x y : pystr) : bool :=
  match x, y with
  | [], _ => true
  | _ :: _, [] => false
  | a :: x', b :: y' =>
      if (a <? b)%N then true
      else if (b <? a)%N then false
      else str_leb x' y'
  end.

Definition str_le (x y : pystr) : Prop := str_leb x y = true.
Definition str_lt (x y : pystr) : Prop := str_le x y ∧ x ≠ y.

#[global] Instance str_le_dec : RelDecision str_le :=
  λ x y, decide (str_leb x y = true).

(** [s.startswith(p)] *)
Fixpoint startswith (s p : pystr) {struct p} : bool :=
  match p, s with
  | [], _ => true
  | _ :: _, [] => false
  | a :: p', b :: s' => (a =? b)%N && startswith s' p'
  end.

(** [sub in s] for strings *)
Fixpoint contains (sub s : pystr) : bool :=
  startswith s sub ||
  match s with
  | [] => false
  | _ :: s' => contains sub s'
  end.

(** [sorted(l)] on strings.  Python's sort is a stable merge sort driven by
    [<]; the elements here are strings, on which the order is total. *)
Definition py_sorted (l : list pystr) : list pystr := merge_sort str_le l.

(** [set(l)] followed by iteration: the distinct elements of [l] in the
    order the hash table yields them. *)
Definition py_set (l : list pystr) : list pystr :=
  elements (list_to_set l : gset pystr).

(** [any(f(p) for p in l)] *)
Definition py_any {A} (f : A → bool) (l : list A) : bool := existsb f l.

(** ** Exceptions *)

Definition exn := pystr.

Inductive result (A : Type) : Type :=
| Ret (v : A)
| Raise (e : exn).
Arguments Ret {A} v.
Arguments Raise {A} e.

#[global] Instance result_ret : MRet result := λ A v, Ret v.
#[global] Instance result_bind : MBind result :=
  λ A B f m, match m with Ret v => f v | Raise e => Raise e end.
#[global] Instance result_fmap : FMap result :=
  λ A B f m, match m with Ret v => Ret (f v) | Raise e => Raise e end.

(** [try: v = m  except Exception: v = d] *)
Definition try_default {A} (m : result A) (d : A) : A :=
  match m with Ret v => v | Raise _ => d end.

(** ** Python values *)

(** An object the code only converts or tests: what [str(o)], [repr(o)]
    and [bool(o)] do on it. *)
Record pyobj := {
  obj_str : result pystr;
  obj_repr : result pystr;
  obj_bool : result bool
}.

(** A key of a mapping.  The code only applies [str] to keys. *)
Inductive pykey :=
| KStr (s : pystr)
| KObj (o : pyobj).

(** [PFloat] carries the binary64 bit pattern; [PPath] the text [str]
    gives for the path; [PSet] the elements in iteration order. *)
Inductive pyval :=
| PNone
| PBool (b : bool)
| PInt (z : Z)
| PFloat (bits : N)
| PStr (s : pystr)
| PPath (s : pystr)
| PBytes (b : list N)
| PDict (items : list (pykey * pyval))
| PList (l : list pyval)
| PTuple (l : list pyval)
| PSet (l : list pyval)
| PObj (o : pyobj).

(** [str(k)] on a key *)
Definition key_str (k : pykey) : result pystr :=
  match k with
  | KStr s => Ret s
  | KObj o => obj_str o
  end.

(** [d[k] = v] on a dict with string keys, kept in insertion order: an
    existing key keeps its place and takes the new value. *)
Fixpoint dict_set (d : list (pystr * pyval)) (k : pystr) (v : pyval)
  : list (pystr * pyval) :=
  match d with
  | [] => [(k, v)]
  | (k', v') :: d' =>
      if bool_decide (k' = k) then (k, v) :: d' else (k', v') :: dict_set d' k v
  end.

Definition str_items (d : list (pystr * pyval)) : list (pykey * pyval) :=
  (λ kv, (KStr kv.1, kv.2)) <$> d.

(** [d.get(k)] for a string key *)
Fixpoint items_get (items : list (pykey * pyval)) (k : pystr) : option pyval :=
  match items with
  | [] => None
  | (KStr k', v) :: r => if bool_decide (k' = k) then Some v else items_get r k
  | (KObj _, _) :: r => items_get r k
  end.

Definition dict_get (d : pyval) (k : string) : option pyval :=
  match d with
  | PDict items => items_get items (py k)
  | _ => None
  end.

(** The keys of a dict, in order. *)
Definition dict_keys (d : pyval) : list pykey :=
  match d with
  | PDict items => fst <$> items
  | _ => []
  end.

(** [bool(v)] *)
Definition truthy (v : pyval) : result bool :=
  match v with
  | PNone => Ret false
  | PBool b => Ret b
  | PInt z => Ret (negb (z =? 0))
  | PFloat bits => Ret (negb ((bits =? 0)%N || (bits =? 2 ^ 63)%N))
  | PStr s => Ret (negb (bool_decide (s = [])))
  | PPath _ => Ret true
  | PBytes b => Ret (negb (bool_decide (b = [])))
  | PDict items => Ret (negb (bool_decide (items = [])))
  | PList l | PTuple l | PSet l => Ret (negb (bool_decide (l = [])))
  | PObj o => obj_bool o
  end.

(** ** The parser object

    What the methods of androguard's [APK] do on one parsed package.  The
    metadata getters and the component getters may return any value;
    [get_permissions] returns [None] or a list of strings; [get_files] a
    list of entries; [get_certificates] [None] or a list of certificate
    objects. *)

(** The manifest object: [toxml] is [None] when the object has no such
    attribute, otherwise what calling it does; [xml_str] is [str] of it. *)
Record xmlobj := {
  toxml : option (result pyval);
  xml_str : result pystr
}.

(** [getattr(c, name, None)] on a certificate: the attribute is missing,
    reading it raises something other than [AttributeError], it is [None],
    or it is an object on which [str] gives the carried outcome. *)
Inductive attr :=
| AttrMissing
| AttrRaise (e : exn)
| AttrNone
| AttrObj (s : result pystr).

Record cert := {
  issuer : attr;
  subject : attr;
  serial_number : attr;
  cert_str : result pystr
}.

Record APK := {
  get_package : result pyval;
  get_app_name : result pyval;
  get_androidversion_name : result pyval;
  get_androidversion_code : result pyval;
  is_debuggable : result pyval;
  get_permissions : result (option (list pystr));
  get_receivers : result pyval;
  get_services : result pyval;
  get_activities : result pyval;
  get_android_manifest_xml : result xmlobj;
  get_files : result (list pyval);
  get_certificates : result (option (list cert))
}.

(** ** Fixed tables of [analyze_apk] *)

Definition dangerous_perm_prefixes : list pystr :=
  py <$> [ "android.permission.SEND_SMS";
           "android.permission.READ_SMS";
           "android.permission.RECEIVE_SMS";
           "android.permission.CALL_PHONE";
           "android.permission.RECORD_AUDIO";
           "android.permission.READ_CONTACTS";
           "android.permission.WRITE_CONTACTS";
           "android.permission.READ_CALL_LOG";
           "android.permission.WRITE_CALL_LOG";
           "android.permission.READ_EXTERNAL_STORAGE";
           "android.permission.WRITE_EXTERNAL_STORAGE";
           "android.permission.MANAGE_EXTERNAL_STORAGE";
           "android.permission.ACCESS_FINE_LOCATION";
           "android.permission.ACCESS_COARSE_LOCATION";
           "android.permission.SYSTEM_ALERT_WINDOW";
           "android.permission.REQUEST_INSTALL_PACKAGES";
           "android.permission.PACKAGE_USAGE_STATS";
           "android.permission.CAMERA" ]%string.

Definition reason_debuggable : pystr :=
  py "App is debuggable (should be disabled in release builds)".
Definition reason_multiple : pystr := py "Multiple dangerous permissions declared".
Definition reason_some : pystr := py "Some dangerous permissions declared".
Definition reason_urls : pystr :=
  py "Lots of embedded URLs (possible trackers/endpoints)".
Definition reason_overlay : pystr :=
  py "Can draw over other apps (SYSTEM_ALERT_WINDOW)".
Definition reason_install : pystr :=
  py "Can request to install packages (side-loading)".

Definition error_not_installed : pystr :=
  py "Androguard is not installed. Please install dependencies from requirements.txt".

Section Analysis.

(** Two tables of the Python runtime the code relies on: the Unicode
    database behind the class [\w] of [re] ([uni_alnum c] is
    [Py_UNICODE_ISALNUM] of the code point [c]), and the UTF-8 codec with
    [errors="ignore"], which is total on [bytes]. *)
Variable uni_alnum : N → bool.
Variable decode_utf8_ignore : list N → pystr.

(** ** [to_jsonable] *)

(** [{str(k): f(v) for k, v in items}]: the key is converted first, then
    the value, then the entry is stored. *)
Definition dict_comprehension (f : pyval → result pyval)
  : list (pykey * pyval) → list (pystr * pyval) → result pyval :=
  fix go items acc :=
    match items with
    | [] => Ret (PDict (str_items acc))
    | (k, v) :: rest =>
        k' ← key_str k;
        v' ← f v;
        go rest (dict_set acc k' v')
    end.

(** [[f(i) for i in l]] is [mapM f l]. *)
Fixpoint to_jsonable (o : pyval) : result pyval :=
  match o with
  | PNone | PBool _ | PInt _ | PFloat _ | PStr _ => Ret o
  | PPath s => Ret (PStr s)
  | PBytes b => Ret (PStr (decode_utf8_ignore b))
  | PDict items => dict_comprehension to_jsonable items []
  | PList l | PTuple l | PSet l => PList <$> mapM to_jsonable l
  | PObj o =>
      match obj_str o with
      | Ret s => Ret (PStr s)
      | Raise _ => PStr <$> obj_repr o
      end
  end.

(** ** The URL pattern
    [re.compile(r"https?://[\w\-._~:/?#\[\]@!$&'()*+,;=%]+", re.IGNORECASE)] *)

(** A letter of the pattern under [IGNORECASE]: either case of it. *)
Definition ieq (cases : string) (c : N) : bool := existsb (N.eqb c) (py cases).

(** [s] under [IGNORECASE] on a [str] pattern also matches U+017F. *)
Definition ieq_s (c : N) : bool := ieq "sS" c || (c =? 383)%N.

(** [\w] on a [str] pattern: alphanumeric in Unicode, or underscore. *)
Definition uni_word (c : N) : bool := uni_alnum c || (c =? 95)%N.

Definition url_char (c : N) : bool :=
  uni_word c || existsb (N.eqb c) (py "-._~:/?#[]@!$&'()*+,;=%").

(** The longest prefix of class characters: the greedy [+]. *)
Fixpoint url_run (s : pystr) : pystr :=
  match s with
  | [] => []
  | c :: s' => if url_char c then c :: url_run s' else []
  end.

(** [://[...]+] at the head of [r]: the text matched. *)
Definition match_tail (r : pystr) : option pystr :=
  match r with
  | c1 :: c2 :: c3 :: r' =>
      if (c1 =? 58)%N && (c2 =? 47)%N && (c3 =? 47)%N then
        match url_run r' with
        | [] => None
        | run => Some (c1 :: c2 :: c3 :: run)
        end
      else None
  | _ => None
  end.

(** The whole pattern at the head of [s]: [s?] first tries to take the
    letter and falls back to skipping it. *)
Definition match_url (s : pystr) : option pystr :=
  match s with
  | c1 :: c2 :: c3 :: c4 :: r =>
      if ieq "hH" c1 && ieq "tT" c2 && ieq "tT" c3 && ieq "pP" c4 then
        let taken :=
          match r with
          | c5 :: r' => if ieq_s c5 then (c5 ::.) <$> match_tail r' else None
          | [] => None
          end in
        (λ m, c1 :: c2 :: c3 :: c4 :: m) <$>
          (match taken with Some m => Some m | None => match_tail r end)
      else None
  | _ => None
  end.

(** [url_regex.findall(s)]: leftmost matches, not overlapping; [skip]
    counts the characters still covered by the previous match. *)
Fixpoint findall_from (skip : nat) (s : pystr) : list pystr :=
  match s with
  | [] => []
  | c :: s' =>
      match skip with
      | S k => findall_from k s'
      | O =>
          match match_url (c :: s') with
          | Some m => m :: findall_from (length m - 1)%nat s'
          | None => findall_from 0 s'
          end
      end
  end.

Definition findall (s : pystr) : list pystr := findall_from 0 s.

(** [findall] applied to a value: a string pattern on anything but a
    [str] raises [TypeError]. *)
Definition findall_val (v : pyval) : result (list pystr) :=
  match v with
  | PStr s => Ret (findall s)
  | _ => Raise (py "TypeError")
  end.

(** ** [analyze_apk] *)

(** [m() or []] under [try ... except Exception: []] *)
Definition or_empty (m : result pyval) : pyval :=
  try_default (v ← m; t ← truthy v; Ret (if t : bool then v else PList []))
              (PList []).

(** [bool(a.is_debuggable())], [None] when the call or the conversion
    raises. *)
Definition debuggable_of (a : APK) : option bool :=
  try_default (v ← is_debuggable a; b ← truthy v; Ret (Some b)) None.

Definition flag_val (d : option bool) : pyval :=
  match d with
  | Some b => PBool b
  | None => PNone
  end.

(** [sorted(set(a.get_permissions() or []))], outside any [try]. *)
Definition permissions_of (a : APK) : result (list pystr) :=
  perms ← get_permissions a;
  Ret (py_sorted (py_set (default [] perms))).

Definition is_dangerous (p : pystr) : bool :=
  py_any (λ dp, startswith p dp) dangerous_perm_prefixes.

Definition dangerous_of (permissions : list pystr) : list pystr :=
  filter (λ p, is_dangerous p = true) permissions.

(** The manifest part of the URL search. *)
Definition manifest_urls (a : APK) : list pystr :=
  try_default
    (x ← get_android_manifest_xml a;
     manifest_xml ← match toxml x with
                    | Some called => called
                    | None => PStr <$> xml_str x
                    end;
     t ← truthy manifest_xml;
     findall_val (if t : bool then manifest_xml else PStr []))
    [].

(** The file-name part of the URL search. *)
Definition file_urls (a : APK) : list pystr :=
  try_default
    (files ← get_files a;
     Ret (concat ((λ f, match f with PStr s => findall s | _ => [] end)
                    <$> files)))
    [].

Definition urls_of (a : APK) : list pystr :=
  py_sorted (py_set (manifest_urls a ++ file_urls a)).

(** [getattr(c, name, None)] *)
Definition getattr_none (x : attr) : result (option (result pystr)) :=
  match x with
  | AttrMissing | AttrNone => Ret None
  | AttrRaise e => Raise e
  | AttrObj s => Ret (Some s)
  end.

(** [str(x) if x is not None else None] *)
Definition str_or_none (x : option (result pystr)) : result pyval :=
  match x with
  | Some s => PStr <$> s
  | None => Ret PNone
  end.

Definition cert_fields (c : cert) : result pyval :=
  i ← getattr_none (issuer c);
  s ← getattr_none (subject c);
  n ← getattr_none (serial_number c);
  i' ← str_or_none i;
  s' ← str_or_none s;
  n' ← str_or_none n;
  Ret (PDict [(KStr (py "issuer"), i');
              (KStr (py "subject"), s');
              (KStr (py "serial_number"), n')]).

(** One turn of the certificate loop: the entry appended. *)
Definition cert_entry (c : cert) : result pyval :=
  match cert_fields c with
  | Ret d => Ret d
  | Raise _ => PStr <$> cert_str c
  end.

Definition certificates_of (a : APK) : pyval :=
  try_default
    (certs ← get_certificates a;
     cert_list ← mapM cert_entry (default [] certs);
     Ret (PList cert_list))
    (PList []).

(** The scoring rules, in the order of the source: the accumulated risk
    and the reasons appended. *)
Definition score_rules (debuggable : option bool)
    (dangerous_perms urls : list pystr) : Z * list pystr :=
  let risk := 0 in
  let reasons := [] in
  let '(risk, reasons) :=
    if default false debuggable
    then (risk + 1, reasons ++ [reason_debuggable])
    else (risk, reasons) in
  let '(risk, reasons) :=
    if 3 <=? Z.of_nat (length dangerous_perms)
    then (risk + 2, reasons ++ [reason_multiple])
    else if 0 <? Z.of_nat (length dangerous_perms)
    then (risk + 1, reasons ++ [reason_some])
    else (risk, reasons) in
  let '(risk, reasons) :=
    if 10 <? Z.of_nat (length urls)
    then (risk + 1, reasons ++ [reason_urls])
    else (risk, reasons) in
  let '(risk, reasons) :=
    if py_any (contains (py "SYSTEM_ALERT_WINDOW")) dangerous_perms
    then (risk + 1, reasons ++ [reason_overlay])
    else (risk, reasons) in
  let '(risk, reasons) :=
    if py_any (contains (py "REQUEST_INSTALL_PACKAGES")) dangerous_perms
    then (risk + 1, reasons ++ [reason_install])
    else (risk, reasons) in
  (risk, reasons).

(** [max(0, min(10, risk))] *)
Definition cap (risk : Z) : Z := Z.max 0 (Z.min 10 risk).

Definition label_of (risk : Z) : pystr :=
  if risk <=? 2 then py "Low"
  else if risk <=? 5 then py "Medium"
  else py "High".

Definition recommend (label : pystr) : pystr * pystr :=
  if bool_decide (label = py "High") then
    (py "Install caution is advised (High risk).",
     py "Dangerous permissions or behavior detected. Avoid installing from untrusted sources.")
  else if bool_decide (label = py "Medium") then
    (py "Recommended installation (Medium risk).",
     py "Multiple risk factors detected. Verify the source and review permissions before installation.")
  else
    (py "Generally safe (Low risk).",
     py "No significant risk factors detected. Verify the source.").

Definition str_list (l : list pystr) : pyval := PList (PStr <$> l).

Definition field (k : string) (v : pyval) : pykey * pyval := (KStr (py k), v).

(** [analyze_apk(apk_path)]: [andro_ok] is the module flag [ANDRO_OK],
    [parsed] what [APK(str(apk_path))] does.  [Raise] is an exception
    leaving [analyze_apk]. *)
Definition analyze_apk (andro_ok : bool) (parsed : result APK) : result pyval :=
  if negb andro_ok then
    Ret (PDict [field "ok" (PBool false);
                field "error" (PStr error_not_installed)])
  else
    match parsed with
    | Raise e =>
        Ret (PDict [field "ok" (PBool false);
                    field "error" (PStr (py "Failed to parse APK: " ++ e))])
    | Ret a =>
        package_name ← get_package a;
        app_name ← get_app_name a;
        version_name ← get_androidversion_name a;
        version_code ← get_androidversion_code a;
        let debuggable := debuggable_of a in
        permissions ← permissions_of a;
        let dangerous_perms := dangerous_of permissions in
        let receivers := or_empty (get_receivers a) in
        let services := or_empty (get_services a) in
        let activities := or_empty (get_activities a) in
        let urls := urls_of a in
        let certificates := certificates_of a in
        let '(risk, reasons) := score_rules debuggable dangerous_perms urls in
        let risk := cap risk in
        let label := label_of risk in
        let '(recommendation, recommendation_reason) := recommend label in
        Ret (PDict [field "ok" (PBool true);
                    field "package_name" package_name;
                    field "app_name" app_name;
                    field "version_name" version_name;
                    field "version_code" version_code;
                    field "debuggable" (flag_val debuggable);
                    field "permissions" (str_list permissions);
                    field "dangerous_permissions"
                          (str_list (py_sorted dangerous_perms));
                    field "receivers" receivers;
                    field "services" services;
                    field "activities" activities;
                    field "urls" (str_list urls);
                    field "certificates" certificates;
                    field "risk_score" (PInt risk);
                    field "risk_label" (PStr label);
                    field "risk_reasons" (str_list reasons);
                    field "recommendation" (PStr recommendation);
                    field "recommendation_reason" (PStr recommendation_reason)])
    end.

End Analysis.

(** ** Shapes and tables used to state the properties *)

(** What [json] can serialise as it is: [None], booleans, numbers,
    strings, lists of such values, and dicts whose keys are distinct
    strings and whose values are such values. *)
Inductive jsonable : pyval → Prop :=
| jsonable_none : jsonable PNone
| jsonable_bool b : jsonable (PBool b)
| jsonable_int z : jsonable (PInt z)
| jsonable_float bits : jsonable (PFloat bits)
| jsonable_str s : jsonable (PStr s)
| jsonable_list l : Forall jsonable l → jsonable (PList l)
| jsonable_dict d :
    NoDup d.*1 → Forall (λ kv, jsonable kv.2) d → jsonable (PDict (str_items d)).

(** The recommendation table of the specification, one row per label. *)
Definition recommendation_table : list (pystr * (pystr * pystr)) :=
  [ (py "Low",
     (py "Generally safe (Low risk).",
      py "No significant risk factors detected. Verify the source."));
    (py "Medium",
     (py "Recommended installation (Medium risk).",
      py "Multiple risk factors detected. Verify the source and review permissions before installation."));
    (py "High",
     (py "Install caution is advised (High risk).",
      py "Dangerous permissions or behavior detected. Avoid installing from untrusted sources.")) ].

Definition table_lookup (label : pystr) : option (pystr * pystr) :=
  snd <$> head (filter (λ row, row.1 = label) recommendation_table).

(** The number of entries of a dict stored under the string key [k]. *)
Definition key_is (k : pystr) (key : pykey) : bool :=
  match key with
  | KStr s => bool_decide (s = k)
  | KObj _ => false
  end.

Definition key_count (d : pyval) (k : string) : nat :=
  length (filter (λ key, key_is (py k) key = true) (dict_keys d)).

(** ** The upload endpoint and its helpers *)

Definition ALLOWED_EXTENSIONS : list pystr := [py "apk"].

(** [s.rsplit(sep, 1)] for a one-character separator: the text before and
    after the last [sep], when there is one. *)
Fixpoint rsplit_last (sep : N) (s : pystr) : option (pystr * pystr) :=
  match s with
  | [] => None
  | c :: s' =>
      match rsplit_last sep s' with
      | Some (before, after) => Some (c :: before, after)
      | None => if (c =? sep)%N then Some ([], s') else None
      end
  end.

Definition rsplit1 (sep : N) (s : pystr) : list pystr :=
  match rsplit_last sep s with
  | Some (before, after) => [before; after]
  | None => [s]
  end.

(** [l[i]], raising [IndexError] out of range. *)
Definition getitem {A} (l : list A) (i : nat) : result A :=
  match l !! i with
  | Some x => Ret x
  | None => Raise (py "IndexError")
  end.

(** [d[k] = v] on the items of a dict, for a string key. *)
Fixpoint items_set (items : list (pykey * pyval)) (k : pystr) (v : pyval)
  : list (pykey * pyval) :=
  match items with
  | [] => [(KStr k, v)]
  | (key, v') :: rest =>
      if key_is k key then (key, v) :: rest else (key, v') :: items_set rest k v
  end.

(** [results[k] = v]; a value that is no dict does not support it. *)
Definition setitem (d : pyval) (k : string) (v : pyval) : result pyval :=
  match d with
  | PDict items => Ret (PDict (items_set items (py k) v))
  | _ => Raise (py "TypeError")
  end.

(** The file under the key [file] of a request: its [filename], [None]
    or a string, and what [file.save(path)] does. *)
Record FileStorage := {
  filename : option pystr;
  save : pystr → result unit
}.

Section Upload.

(** What the endpoint takes from outside the repository: the two tables
    of the Python runtime as before and [str.lower]; [hashlib.sha256]
    as a state with [update] and [hexdigest]; [open(path, 'rb')] as the
    bytes of the file or the exception; werkzeug's [secure_filename];
    the text [datetime.utcnow().strftime(...)] gives at the call; the
    upload directory; the flag [ANDRO_OK] and the constructor [APK]. *)
Variable uni_alnum : N → bool.
Variable decode_utf8_ignore : list N → pystr.
Variable py_lower : pystr → pystr.
Variable sha256_state : Type.
Variable sha256_new : sha256_state.
Variable sha256_update : sha256_state → list N → sha256_state.
Variable sha256_hexdigest : sha256_state → pystr.
Variable open_rb : pystr → result (list N).
Variable secure_filename : pystr → pystr.
Variable utcnow_text : pystr.
Variable UPLOAD_DIR : pystr.
Variable ANDRO_OK : bool.
Variable APK_new : pystr → result APK.

(** [allowed_file(filename)] *)
Definition allowed_file (filename : pystr) : result bool :=
  if contains (py ".") filename then
    ext ← getitem (rsplit1 46 filename) 1;
    Ret (bool_decide (py_lower ext ∈ ALLOWED_EXTENSIONS))
  else Ret false.

(** The loop of [sha256_file]: [f.read(size)] until it returns [b'']; a
    buffered binary file gives [size] bytes until fewer are left.
    [fuel] bounds the number of reads. *)
Fixpoint read_chunks (fuel size : nat) (h : sha256_state) (rest : list N)
  : sha256_state :=
  match fuel with
  | O => h
  | S fuel' =>
      match take size rest with
      | [] => h
      | chunk => read_chunks fuel' size (sha256_update h chunk) (drop size rest)
      end
  end.

(** [sha256_file(path)]: one read more than the file has bytes is always
    enough. *)
Definition sha256_file (path : pystr) : result pystr :=
  content ← open_rb path;
  Ret (sha256_hexdigest
         (read_chunks (S (length content)) (N.to_nat (1024 * 1024))
            sha256_new content)).

Definition error_body (message : string) : pyval :=
  PDict [field "ok" (PBool false); field "error" (PStr (py message))].

(** [upload()]: [request_file] is [request.files["file"]] when the key
    is there.  The outcome is the value given to [jsonify] with the
    status code; [Raise] is an exception leaving the view. *)
Definition upload (request_file : option FileStorage) : result (pyval * Z) :=
  match request_file with
  | None => Ret (error_body "No file part", 400)
  | Some file =>
      match filename file with
      | Some [] => Ret (error_body "No selected file", 400)
      | None => Raise (py "TypeError")
      | Some name =>
          allowed ← allowed_file name;
          if negb allowed then
            Ret (error_body "Only .apk files are allowed", 400)
          else
            let filename := secure_filename name in
            let save_name := utcnow_text ++ py "_" ++ filename in
            let save_path := UPLOAD_DIR ++ py "/" ++ save_name in
            _ ← save file save_path;
            results ← analyze_apk uni_alnum ANDRO_OK (APK_new save_path);
            results ← setitem results "filename" (PStr filename);
            let results :=
              try_default
                (digest ← sha256_file save_path;
                 setitem results "sha256" (PStr digest))
                results in
            safe_results ← to_jsonable decode_utf8_ignore results;
            Ret (safe_results, 200)
      end
  end.

(** Where [upload] saves the file: [UPLOAD_DIR / f"{ts}_{filename}"]. *)
Definition save_path_of (name : pystr) : pystr :=
  UPLOAD_DIR ++ py "/" ++ utcnow_text ++ py "_" ++ secure_filename name.

(** The entries of [results] when [upload] calls [to_jsonable]: those of
    the analysis, then [filename], then [sha256] when the digest could
    be computed. *)
Definition with_upload_fields (name : pystr) (d : list (pystr * pyval))
  : list (pystr * pyval) :=
  let d1 := dict_set d (py "filename") (PStr (secure_filename name)) in
  match sha256_file (save_path_of name) with
  | Ret digest => dict_set d1 (py "sha256") (PStr digest)
  | Raise _ => d1
  end.

End Upload.

(** A scheme the pattern accepts: [http] or [https] in either case. *)
Definition is_http (scheme : pystr) : bool :=
  match scheme with
  | [c1; c2; c3; c4] =>
      ieq "hH" c1 && ieq "tT" c2 && ieq "tT" c3 && ieq "pP" c4
  | [c1; c2; c3; c4; c5] =>
      ieq "hH" c1 && ieq "tT" c2 && ieq "tT" c3 && ieq "pP" c4 && ieq_s c5
  | _ => false
  end.

(** The text after a match does not continue it. *)
Definition stops_match (uni_alnum : N → bool) (post : pystr) : Prop :=
  match post with
  | [] => True
  | c :: _ => url_char uni_alnum c = false
  end.

(** Values [to_jsonable] meets no object in: primitives, paths, bytes,
    and containers of such values, dicts having string keys. *)
Inductive plain : pyval → Prop :=
| plain_none : plain PNone
| plain_bool b : plain (PBool b)
| plain_int z : plain (PInt z)
| plain_float bits : plain (PFloat bits)
| plain_str s : plain (PStr s)
| plain_path s : plain (PPath s)
| plain_bytes b : plain (PBytes b)
| plain_dict d : Forall (λ kv, plain kv.2) d → plain (PDict (str_items d))
| plain_list l : Forall plain l → plain (PList l)
| plain_tuple l : Forall plain l → plain (PTuple l)
| plain_set l : Forall plain l → plain (PSet l).

(** An entry of [certificates]: the three-key dict, each value a string
    or [None], or the text of the certificate. *)
Definition str_or_null (v : pyval) : Prop := v = PNone ∨ ∃ s, v = PStr s.

Definition cert_shaped (entry : pyval) : Prop :=
  (∃ s, entry = PStr s)
  ∨ ∃ i s n,
      entry = PDict [field "issuer" i; field "subject" s;
                     field "serial_number" n]
      ∧ str_or_null i ∧ str_or_null s ∧ str_or_null n.

(** The entries of a dict that stand under string keys. *)
Definition str_entries (items : list (pykey * pyval)) : list (pystr * pyval) :=
  omap (λ kv, match kv.1 with KStr k => Some (k, kv.2) | KObj _ => None end)
       items.

(** ** Inputs used to run the model *)

(** The ASCII part of the Unicode alphanumeric table. *)
Definition ascii_alnum (c : N) : bool :=
  ((48 <=? c) && (c <=? 57) || (65 <=? c) && (c <=? 90)
   || (97 <=? c) && (c <=? 122))%N.

(** A decoder for input bytes below 128, where UTF-8 is the identity. *)
Definition ascii_decode (b : list N) : pystr := filter (λ c, (c < 128)%N) b.

Definition sample_manifest : pystr :=
  py "<a href='HTTPS://Example.com/x?y=1'> http://b.org http://b.org httpx://no http:// </a>".

Definition sample_files : list pyval :=
  [PStr (py "assets/http://cdn.example.com/a.js"); PInt 3; PStr (py "res/x.png")].

Definition sample_apk : APK := {|
  get_package := Ret (PStr (py "com.example.app"));
  get_app_name := Ret (PStr (py "Example"));
  get_androidversion_name := Ret (PStr (py "1.0"));
  get_androidversion_code := Ret (PStr (py "1"));
  is_debuggable := Ret (PBool true);
  get_permissions :=
    Ret (Some (py <$> [ "android.permission.INTERNET";
                        "android.permission.CAMERA";
                        "android.permission.SEND_SMS";
                        "android.permission.CAMERA";
                        "android.permission.SYSTEM_ALERT_WINDOW" ]%string));
  get_receivers := Ret (PList [PStr (py "com.example.Boot")]);
  get_services := Ret PNone;
  get_activities := Raise (py "boom");
  get_android_manifest_xml :=
    Ret {| toxml := Some (Ret (PStr sample_manifest)); xml_str := Ret (py "<obj>") |};
  get_files := Ret sample_files;
  get_certificates :=
    Ret (Some [ {| issuer := AttrObj (Ret (py "CN=A")); subject := AttrMissing;
                   serial_number := AttrNone; cert_str := Ret (py "cert") |};
                {| issuer := AttrRaise (py "bad"); subject := AttrMissing;
                   serial_number := AttrNone; cert_str := Ret (py "cert2") |} ])
|}.

(** The same package on a parser whose [get_app_name] raises, as
    androguard does on a damaged resource table. *)
Definition apk_app_name_raises : APK := {|
  get_package := get_package sample_apk;
  get_app_name := Raise (py "resources.arsc is damaged");
  get_androidversion_name := get_androidversion_name sample_apk;
  get_androidversion_code := get_androidversion_code sample_apk;
  is_debuggable := is_debuggable sample_apk;
  get_permissions := get_permissions sample_apk;
  get_receivers := get_receivers sample_apk;
  get_services := get_services sample_apk;
  get_activities := get_activities sample_apk;
  get_android_manifest_xml := get_android_manifest_xml sample_apk;
  get_files := get_files sample_apk;
  get_certificates := get_certificates sample_apk
|}.

(** The same package on a parser whose [is_debuggable] raises. *)
Definition apk_debuggable_raises : APK := {|
  get_package := get_package sample_apk;
  get_app_name := get_app_name sample_apk;
  get_androidversion_name := get_androidversion_name sample_apk;
  get_androidversion_code := get_androidversion_code sample_apk;
  is_debuggable := Raise (py "no such attribute");
  get_permissions := get_permissions sample_apk;
  get_receivers := get_receivers sample_apk;
  get_services := get_services sample_apk;
  get_activities := get_activities sample_apk;
  get_android_manifest_xml := get_android_manifest_xml sample_apk;
  get_files := get_files sample_apk;
  get_certificates := get_certificates sample_apk
|}.

(** The scenario of the specification: four dangerous permissions, two of
    them the overlay and the install permission, and twenty URLs. *)
Definition scenario_perms : list pystr :=
  py <$> [ "android.permission.CAMERA";
           "android.permission.REQUEST_INSTALL_PACKAGES";
           "android.permission.SEND_SMS";
           "android.permission.SYSTEM_ALERT_WINDOW" ]%string.

Definition scenario_urls : list pystr :=
  (λ n : nat, py "http://h/" ++ [(97 + N.of_nat n)%N]) <$> seq 0 20.

(** A nested value with colliding keys, a set, bytes and an object. *)
Definition sample_value : pyval :=
  PDict [ (KStr (py "1"), PTuple [PInt 1; PPath (py "/tmp/x")]);
          (KObj {| obj_str := Ret (py "1"); obj_repr := Ret (py "one");
                   obj_bool := Ret true |},
           PSet [PBytes [104; 105]%N; PNone]);
          (KStr (py "o"),
           PObj {| obj_str := Raise (py "no str"); obj_repr := Ret (py "<o>");
                   obj_bool := Ret true |}) ].

(** A package realising the scenario: debuggable, those permissions, and
    twenty file names each holding one URL. *)
Definition scenario_apk : APK := {|
  get_package := get_package sample_apk;
  get_app_name := get_app_name sample_apk;
  get_androidversion_name := get_androidversion_name sample_apk;
  get_androidversion_code := get_androidversion_code sample_apk;
  is_debuggable := Ret (PInt 1);
  get_permissions := Ret (Some (scenario_perms ++ [py "android.permission.INTERNET"]));
  get_receivers := Ret (PList []);
  get_services := Ret (PList []);
  get_activities := Ret (PList []);
  get_android_manifest_xml := Raise (py "no manifest");
  get_files := Ret (PStr <$> scenario_urls);
  get_certificates := Raise (py "no signature")
|}.

(** The result of analysing a parsed package with the inputs above. *)
Definition run (a : APK) : pyval :=
  try_default (analyze_apk ascii_alnum true (Ret a)) PNone.

(** ** Inputs used to run the upload endpoint *)

(** [str.lower] on ASCII letters. *)
Definition ascii_lower (s : pystr) : pystr :=
  (λ c, if (65 <=? c) && (c <=? 90) then c + 32 else c)%N <$> s.

(** A stand-in for the hash object that is streaming as [hashlib]'s is:
    the state is the bytes seen so far, and the digest is their text. *)
Definition demo_update (h chunk : list N) : list N := h ++ chunk.

Definition demo_hexdigest (h : list N) : pystr := h.

(** A stand-in for [secure_filename]: path separators are dropped. *)
Definition demo_secure_filename (name : pystr) : pystr :=
  filter (λ c, c ≠ 47%N) name.

Definition demo_name : pystr := py "My/App.APK".

Definition demo_path : pystr :=
  save_path_of demo_secure_filename (py "20240101_000000_000000")
    (py "uploads") demo_name.

(** A file system holding the saved upload and nothing else. *)
Definition demo_content : list N := [80; 75; 3; 4]%N.

Definition demo_open_rb (path : pystr) : result (list N) :=
  if bool_decide (path = demo_path) then Ret demo_content
  else Raise (py "FileNotFoundError").

Definition demo_file : FileStorage :=
  {| filename := Some demo_name; save := λ _, Ret tt |}.

(** The endpoint on these inputs, for a given import flag and parser. *)
Definition demo_upload (ANDRO_OK : bool) (APK_new : pystr → result APK)
  : option FileStorage → result (pyval * Z) :=
  upload ascii_alnum ascii_decode ascii_lower (list N) [] demo_update
    demo_hexdigest demo_open_rb demo_secure_filename
    (py "20240101_000000_000000") (py "uploads") ANDRO_OK APK_new.

(** The body answered when the parser gives [sample_apk]. *)
Definition demo_body : pyval :=
  try_default (fst <$> demo_upload true (λ _, Ret sample_apk) (Some demo_file))
    PNone.

(** * Properties *)

(** ** The order on strings and [sorted] *)

Lemma str_leb_refl x : str_leb x x = true.
Proof.
  induction x as [|a x IH]; simpl; [done|].
  by rewrite N.ltb_irrefl.
Qed.

#[global] Instance str_le_refl : Reflexive str_le.
Proof. intros x. apply str_leb_refl. Qed.

#[global] Instance str_le_total : Total str_le.
Proof.
  intros x. unfold str_le.
  induction x as [|a x IH]; intros [|b y]; simpl; auto.
  destruct (N.ltb_spec a b), (N.ltb_spec b a); auto; lia.
Qed.

#[global] Instance str_le_trans : Transitive str_le.
Proof.
  intros x. unfold str_le.
  induction x as [|a x IH]; intros [|b y] [|c z]; simpl; try done.
  destruct (N.ltb_spec a b), (N.ltb_spec b a), (N.ltb_spec b c),
    (N.ltb_spec c b), (N.ltb_spec a c), (N.ltb_spec c a);
    try done; try lia.
  apply IH.
Qed.

#[global] Instance str_le_antisym : AntiSymm (=) str_le.
Proof.
  intros x. unfold str_le.
  induction x as [|a x IH]; intros [|b y]; simpl; try done.
  destruct (N.ltb_spec a b), (N.ltb_spec b a); try done; try lia.
  intros H1 H2. assert (a = b) as -> by lia. f_equal. by apply IH.
Qed.

Lemma py_sorted_Sorted l : Sorted str_le (py_sorted l).
Proof. apply (Sorted_merge_sort str_le). Qed.

Lemma py_sorted_Permutation l : py_sorted l ≡ₚ l.
Proof. apply (merge_sort_Permutation str_le). Qed.

Lemma elem_of_py_sorted x l : x ∈ py_sorted l ↔ x ∈ l.
Proof. by rewrite py_sorted_Permutation. Qed.

Lemma py_sorted_NoDup l : NoDup l → NoDup (py_sorted l).
Proof. by rewrite py_sorted_Permutation. Qed.

(** The outcome of [sorted] depends on the elements only, not on the
    order they come in. *)
Lemma py_sorted_order_irrelevant l1 l2 : l1 ≡ₚ l2 → py_sorted l1 = py_sorted l2.
Proof.
  intros Hp. apply (Sorted_unique str_le); try apply py_sorted_Sorted.
  by rewrite !py_sorted_Permutation.
Qed.

Lemma py_sorted_id l : Sorted str_le l → py_sorted l = l.
Proof.
  intros Hs. apply (Sorted_unique str_le); try done.
  - apply py_sorted_Sorted.
  - apply py_sorted_Permutation.
Qed.

Lemma NoDup_py_set l : NoDup (py_set l).
Proof. unfold py_set. apply NoDup_elements. Qed.

Lemma elem_of_py_set x l : x ∈ py_set l ↔ x ∈ l.
Proof. unfold py_set. by rewrite elem_of_elements, elem_of_list_to_set. Qed.

(** Any enumeration of the set gives the same sorted list. *)
Lemma sorted_set_enumeration l l' :
  NoDup l' → (∀ x, x ∈ l' ↔ x ∈ l) → py_sorted l' = py_sorted (py_set l).
Proof.
  intros Hnd Hel. apply py_sorted_order_irrelevant.
  apply NoDup_Permutation; [done|apply NoDup_py_set|].
  intros x. by rewrite Hel, elem_of_py_set.
Qed.

(** A sorted list without duplicates ascends strictly. *)
Lemma Sorted_NoDup_strict l :
  Sorted str_le l → NoDup l → StronglySorted str_lt l.
Proof.
  intros Hs%(Sorted_StronglySorted str_le) Hnd.
  induction Hs as [|x l Hs IH Hall]; [constructor|].
  apply NoDup_cons in Hnd as [Hx Hnd].
  constructor; [by apply IH|].
  apply Forall_forall. intros y Hy. split.
  - by eapply Forall_forall in Hall.
  - intros ->. done.
Qed.

Lemma filter_Sorted (P : pystr → Prop) `{∀ x, Decision (P x)} l :
  Sorted str_le l → Sorted str_le (filter P l).
Proof.
  intros Hs%(Sorted_StronglySorted str_le).
  apply StronglySorted_Sorted.
  induction Hs as [|x l Hs IH Hall]; [constructor|].
  rewrite filter_cons. destruct (decide (P x)); [|done].
  constructor; [done|].
  apply Forall_forall. intros y [_ Hy]%list_elem_of_filter.
  by eapply Forall_forall in Hall.
Qed.

(** ** [startswith] and [in] *)

Lemma startswith_prefix s p : startswith s p = true ↔ p `prefix_of` s.
Proof.
  revert s. induction p as [|a p IH]; intros s; simpl.
  - split; [intros _; apply prefix_nil|done].
  - destruct s as [|b s].
    + split; [done|]. intros [k Hk]. done.
    + rewrite andb_true_iff, N.eqb_eq, IH. split.
      * intros [-> Hp]. by apply prefix_cons.
      * intros [k Hk]. simplify_eq/=. split; [done|]. by exists k.
Qed.

Lemma is_dangerous_spec p :
  is_dangerous p = true ↔ ∃ dp, dp ∈ dangerous_perm_prefixes ∧ dp `prefix_of` p.
Proof.
  unfold is_dangerous, py_any. rewrite existsb_exists. split.
  - intros (dp & Hin & Hs). exists dp. split.
    + by apply list_elem_of_In.
    + by apply startswith_prefix.
  - intros (dp & Hin & Hs). exists dp. split.
    + by apply list_elem_of_In.
    + by apply startswith_prefix.
Qed.

(** ** Induction on values, through lists and dict items *)

Lemma pyval_nested_ind (P : pyval → Prop) :
  P PNone → (∀ b, P (PBool b)) → (∀ z, P (PInt z)) → (∀ f, P (PFloat f)) →
  (∀ s, P (PStr s)) → (∀ s, P (PPath s)) → (∀ b, P (PBytes b)) →
  (∀ items, Forall (λ kv, P kv.2) items → P (PDict items)) →
  (∀ l, Forall P l → P (PList l)) →
  (∀ l, Forall P l → P (PTuple l)) →
  (∀ l, Forall P l → P (PSet l)) →
  (∀ o, P (PObj o)) →
  ∀ v, P v.
Proof.
  intros HNone HBool HInt HFloat HStr HPath HBytes HDict HList HTuple HSet HObj.
  fix IH 1. intros [|b|z|f|s|s|b|items|l|l|l|o].
  - exact HNone.
  - exact (HBool b).
  - exact (HInt z).
  - exact (HFloat f).
  - exact (HStr s).
  - exact (HPath s).
  - exact (HBytes b).
  - apply HDict. induction items as [|[k v] items IHitems];
      constructor; [exact (IH v)|exact IHitems].
  - apply HList. induction l as [|v l IHl];
      constructor; [exact (IH v)|exact IHl].
  - apply HTuple. induction l as [|v l IHl];
      constructor; [exact (IH v)|exact IHl].
  - apply HSet. induction l as [|v l IHl];
      constructor; [exact (IH v)|exact IHl].
  - exact (HObj o).
Qed.

(** ** Dict assignment *)

Lemma elem_of_dict_set_keys d k v k' :
  k' ∈ (dict_set d k v).*1 ↔ k' = k ∨ k' ∈ d.*1.
Proof.
  induction d as [|[k0 v0] d IH]; simpl.
  - rewrite list_elem_of_singleton, elem_of_nil. tauto.
  - case_bool_decide; simpl; rewrite !elem_of_cons; [subst|rewrite IH]; tauto.
Qed.

Lemma dict_set_NoDup d k v : NoDup d.*1 → NoDup (dict_set d k v).*1.
Proof.
  induction d as [|[k0 v0] d IH]; simpl.
  - intros _. apply NoDup_singleton.
  - rewrite NoDup_cons. intros [Hk0 Hd].
    case_bool_decide; simpl; rewrite NoDup_cons; [by subst|].
    split; [|by apply IH].
    rewrite elem_of_dict_set_keys. intros [->|?]; done.
Qed.

Lemma dict_set_Forall (Q : pystr * pyval → Prop) d k v :
  Forall Q d → Q (k, v) → Forall Q (dict_set d k v).
Proof.
  induction 1 as [|[k0 v0] d H0 Hd IH]; simpl; intros Hq.
  - by constructor.
  - case_bool_decide; constructor; auto.
Qed.

Lemma dict_set_fresh d k v : k ∉ d.*1 → dict_set d k v = d ++ [(k, v)].
Proof.
  induction d as [|[k0 v0] d IH]; simpl; [done|].
  rewrite not_elem_of_cons. intros [Hne Hd].
  case_bool_decide; [by subst|]. by rewrite IH.
Qed.

Section ToJsonable.

Variable decode : list N → pystr.

(** ** The output of [to_jsonable] *)

Lemma dict_comprehension_shape items acc v :
  Forall (λ kv, ∀ v, to_jsonable decode kv.2 = Ret v → jsonable v) items →
  NoDup acc.*1 → Forall (λ kv, jsonable kv.2) acc →
  dict_comprehension (to_jsonable decode) items acc = Ret v → jsonable v.
Proof.
  intros Hitems. revert acc.
  induction Hitems as [|[k x] items Hx Hitems IH]; simpl; intros acc Hnd Hacc.
  - intros [= <-]. by constructor.
  - destruct (key_str k) as [k'|]; simpl; [|done].
    destruct (to_jsonable decode x) as [x'|] eqn:Hxe; simpl; [|done].
    apply IH.
    + by apply dict_set_NoDup.
    + apply dict_set_Forall; [done|]. by apply Hx.
Qed.

Lemma list_comprehension_shape l l' :
  Forall (λ x, ∀ v, to_jsonable decode x = Ret v → jsonable v) l →
  mapM (to_jsonable decode) l = Ret l' → Forall jsonable l'.
Proof.
  intros Hl. revert l'.
  induction Hl as [|x l Hx Hl IH]; simpl; intros l'.
  - intros [= <-]. constructor.
  - destruct (to_jsonable decode x) as [x'|] eqn:Hxe; simpl; [|done].
    destruct (mapM (to_jsonable decode) l) as [r|]; simpl; [|done].
    intros [= <-]. constructor; auto.
Qed.

Lemma to_jsonable_shape o v : to_jsonable decode o = Ret v → jsonable v.
Proof.
  revert v. induction o as [| | | | | | |items IH|l IH|l IH|l IH|o]
    using pyval_nested_ind; simpl; intros v.
  1-7: intros [= <-]; constructor.
  - apply dict_comprehension_shape; [done|constructor|constructor].
  - destruct (mapM (to_jsonable decode) l) as [l'|] eqn:Hm; simpl; [|done].
    intros [= <-]. constructor. by eapply list_comprehension_shape.
  - destruct (mapM (to_jsonable decode) l) as [l'|] eqn:Hm; simpl; [|done].
    intros [= <-]. constructor. by eapply list_comprehension_shape.
  - destruct (mapM (to_jsonable decode) l) as [l'|] eqn:Hm; simpl; [|done].
    intros [= <-]. constructor. by eapply list_comprehension_shape.
  - destruct (obj_str o); [intros [= <-]; constructor|].
    destruct (obj_repr o); simpl; [intros [= <-]; constructor|done].
Qed.

(** ** Such values are fixed points *)

Lemma dict_comprehension_fixed d acc :
  NoDup (acc ++ d).*1 →
  Forall (λ kv, to_jsonable decode kv.2 = Ret kv.2) d →
  dict_comprehension (to_jsonable decode) (str_items d) acc
  = Ret (PDict (str_items (acc ++ d))).
Proof.
  intros Hnd Hd. revert acc Hnd.
  induction Hd as [|[k x] d Hx Hd IH]; simpl; intros acc Hnd.
  - by rewrite app_nil_r.
  - simpl in Hx. rewrite Hx. simpl.
    rewrite dict_set_fresh.
    + rewrite IH; rewrite <- app_assoc; done.
    + rewrite fmap_app, NoDup_app in Hnd. destruct Hnd as (_ & Hdis & _).
      intros Hin. apply (Hdis k Hin). simpl. left.
Qed.

Lemma list_comprehension_fixed l :
  Forall (λ x, to_jsonable decode x = Ret x) l → mapM (to_jsonable decode) l = Ret l.
Proof.
  induction 1 as [|x l Hx Hl IH]; simpl; [done|].
  by rewrite Hx, IH.
Qed.

Lemma to_jsonable_fixed v : jsonable v → to_jsonable decode v = Ret v.
Proof.
  induction v as [| | | | | | |items IH|l IH|l IH|l IH|o]
    using pyval_nested_ind; inversion 1 as [| | | | |l' Hl|d Hnd Hd]; subst;
    simpl; try done.
  - rewrite (dict_comprehension_fixed d []); [done|done|].
    unfold str_items in IH. rewrite Forall_fmap in IH.
    eapply Forall_impl; [apply Forall_and; split; [exact IH|exact Hd]|].
    intros [k x] [Hi Hj]. simpl in *. by apply Hi.
  - rewrite list_comprehension_fixed; [done|].
    eapply Forall_impl; [apply Forall_and; split; [exact IH|exact Hl]|].
    intros x [Hi Hj]. by apply Hi.
Qed.

(** C8. [to_jsonable] is idempotent: converting a converted value returns
    it unchanged, and when the first conversion raises so does the
    composition.  The reason is the one the claim gives: the output is
    always [jsonable] ([to_jsonable_shape]) and every such value is a
    fixed point ([to_jsonable_fixed]). *)
Theorem to_jsonable_idempotent (o : pyval) :
  to_jsonable decode o ≫= to_jsonable decode = to_jsonable decode o
  ∧ match to_jsonable decode o with
    | Ret v => jsonable v ∧ to_jsonable decode v = Ret v
    | Raise _ => True
    end.
Proof.
  destruct (to_jsonable decode o) as [v|e] eqn:Ho; simpl; [|done].
  pose proof (to_jsonable_shape _ _ Ho) as Hj.
  pose proof (to_jsonable_fixed _ Hj) as Hf.
  done.
Qed.

End ToJsonable.

(** ** The scoring rules *)

(** Every rule that fires adds at least one to the risk and appends
    exactly one reason; at most five rules fire and they add at most six. *)
Lemma score_rules_bounds debuggable dangerous_perms urls :
  let '(risk, reasons) := score_rules debuggable dangerous_perms urls in
  Z.of_nat (length reasons) ≤ risk ≤ 6
  ∧ (length reasons ≤ 5)%nat
  ∧ (risk = 0 ↔ reasons = []).
Proof.
  unfold score_rules.
  destruct (default false debuggable),
    (3 <=? Z.of_nat (length dangerous_perms)),
    (0 <? Z.of_nat (length dangerous_perms)),
    (10 <? Z.of_nat (length urls)),
    (py_any (contains (py "SYSTEM_ALERT_WINDOW")) dangerous_perms),
    (py_any (contains (py "REQUEST_INSTALL_PACKAGES")) dangerous_perms);
    simpl; repeat split; intros; try lia; try done.
Qed.

Lemma cap_range risk : 0 ≤ cap risk ≤ 10.
Proof. unfold cap. lia. Qed.

Lemma cap_small risk : 0 ≤ risk ≤ 10 → cap risk = risk.
Proof. unfold cap. lia. Qed.

Lemma label_of_thresholds score :
  (score ≤ 2 → label_of score = py "Low")
  ∧ (3 ≤ score ≤ 5 → label_of score = py "Medium")
  ∧ (6 ≤ score → label_of score = py "High").
Proof.
  unfold label_of.
  destruct (Z.leb_spec score 2), (Z.leb_spec score 5);
    repeat split; intros; try lia; done.
Qed.

(** An unknown flag scores like [False]. *)
Lemma score_rules_unknown_flag dangerous_perms urls :
  score_rules None dangerous_perms urls
  = score_rules (Some false) dangerous_perms urls.
Proof. reflexivity. Qed.

Lemma debuggable_reason_only_from_flag debuggable dangerous_perms urls :
  default false debuggable = false →
  reason_debuggable ∉ (score_rules debuggable dangerous_perms urls).2.
Proof.
  unfold score_rules. intros ->.
  destruct (3 <=? Z.of_nat (length dangerous_perms)),
    (0 <? Z.of_nat (length dangerous_perms)),
    (10 <? Z.of_nat (length urls)),
    (py_any (contains (py "SYSTEM_ALERT_WINDOW")) dangerous_perms),
    (py_any (contains (py "REQUEST_INSTALL_PACKAGES")) dangerous_perms);
    simpl; refine (proj1 (bool_decide_eq_false _) _); vm_compute; reflexivity.
Qed.

Lemma recommend_table label :
  label = py "Low" ∨ label = py "Medium" ∨ label = py "High" →
  table_lookup label = Some (recommend label).
Proof. intros [->|[->| ->]]; vm_compute; reflexivity. Qed.

Lemma label_of_cases score :
  label_of score = py "Low" ∨ label_of score = py "Medium"
  ∨ label_of score = py "High".
Proof. unfold label_of. repeat case_match; auto. Qed.

Lemma str_list_inj l1 l2 : str_list l1 = str_list l2 → l1 = l2.
Proof.
  unfold str_list. intros [= H]. revert l2 H.
  induction l1 as [|x l1 IH]; intros [|y l2]; simpl; try done.
  intros [= -> H]. f_equal. by apply IH.
Qed.

Section Properties.

Variable uni_alnum : N → bool.

(** ** The two outcomes of [analyze_apk] *)

Lemma analyze_success_parsed ok parsed r :
  analyze_apk uni_alnum ok parsed = Ret r →
  dict_get r "ok" = Some (PBool true) →
  ∃ a, ok = true ∧ parsed = Ret a.
Proof.
  unfold analyze_apk. destruct ok; simpl.
  - destruct parsed as [a|e]; [eauto|].
    intros [= <-]. vm_compute. done.
  - intros [= <-]. vm_compute. done.
Qed.

(** Unfolds a run of [analyze_apk] that returned: names what each
    unguarded getter returned, the rule outcome and the recommendation. *)
Ltac analyze_inv H :=
  unfold analyze_apk in H; simpl in H;
  repeat match type of H with
  | context [mbind _ ?m] =>
      let x := fresh "got" in
      let E := fresh "Eget" in
      destruct m as [x|] eqn:E; simpl in H; [|discriminate H]
  end;
  match type of H with
  | context [score_rules ?d ?p ?u] =>
      let Es := fresh "Escore" in
      destruct (score_rules d p u) as [risk reasons] eqn:Es
  end;
  match type of H with
  | context [recommend ?l] =>
      let Er := fresh "Erec" in
      destruct (recommend l) as [recommendation recommendation_reason] eqn:Er
  end;
  injection H as <-.

(** C2. In every successful result [risk_score] is an integer between 0
    and 10, the cap holding whatever the rules add up to, and
    [risk_label] is the function of the score with thresholds 2 and 5. *)
Theorem risk_score_range_and_label ok parsed r :
  analyze_apk uni_alnum ok parsed = Ret r →
  dict_get r "ok" = Some (PBool true) →
  ∃ score,
    dict_get r "risk_score" = Some (PInt score)
    ∧ 0 ≤ score ≤ 10
    ∧ dict_get r "risk_label" = Some (PStr (label_of score))
    ∧ (score ≤ 2 → label_of score = py "Low")
    ∧ (3 ≤ score ≤ 5 → label_of score = py "Medium")
    ∧ (6 ≤ score → label_of score = py "High")
    ∧ (∀ risk, 0 ≤ cap risk ≤ 10).
Proof.
  intros H Hok. destruct (analyze_success_parsed _ _ _ H Hok) as (a & -> & ->).
  analyze_inv H. exists (cap risk).
  pose proof (label_of_thresholds (cap risk)) as (? & ? & ?).
  repeat split; try done; apply cap_range.
Qed.

(** C3. When the parser fails on the file, [analyze_apk] returns the dict
    with the two keys [ok] and [error] and nothing else: [ok] is [False]
    and [error] is the parser's message after the fixed text
    ["Failed to parse APK: "].  No parser object exists on this path, so
    no getter is called and nothing is extracted, scored or recommended. *)
Theorem parse_failure_result (e : exn) :
  ∃ message,
    analyze_apk uni_alnum true (Raise e)
    = Ret (PDict [field "ok" (PBool false); field "error" (PStr message)])
    ∧ message = py "Failed to parse APK: " ++ e
    ∧ ∀ r, analyze_apk uni_alnum true (Raise e) = Ret r →
           dict_keys r = [KStr (py "ok"); KStr (py "error")]
           ∧ dict_get r "ok" = Some (PBool false)
           ∧ dict_get r "risk_score" = None
           ∧ dict_get r "recommendation" = None.
Proof.
  exists (py "Failed to parse APK: " ++ e). split; [reflexivity|].
  split; [reflexivity|]. intros r [= <-]. by vm_compute.
Qed.

(** C9. In every successful result the score is 0 exactly when there are
    no reasons; there are at most five reasons, and no more reasons than
    the score, which the cap left as the rules computed it. *)
Theorem score_zero_iff_no_reasons ok parsed r :
  analyze_apk uni_alnum ok parsed = Ret r →
  dict_get r "ok" = Some (PBool true) →
  ∃ score reasons,
    dict_get r "risk_score" = Some (PInt score)
    ∧ dict_get r "risk_reasons" = Some (str_list reasons)
    ∧ (score = 0 ↔ reasons = [])
    ∧ (length reasons ≤ 5)%nat
    ∧ Z.of_nat (length reasons) ≤ score
    ∧ ∃ a perms,
        parsed = Ret a ∧ permissions_of a = Ret perms
        ∧ score_rules (debuggable_of a) (dangerous_of perms)
            (urls_of uni_alnum a) = (score, reasons).
Proof.
  intros H Hok. destruct (analyze_success_parsed _ _ _ H Hok) as (a & -> & ->).
  analyze_inv H. exists (cap risk), reasons.
  pose proof (score_rules_bounds (debuggable_of a) (dangerous_of got3)
                (urls_of uni_alnum a)) as Hb.
  rewrite Escore in Hb. destruct Hb as (Hlen & H5 & Hz).
  rewrite (cap_small risk) by lia.
  repeat split; try done; try tauto; try lia.
  exists a, got3. by rewrite Escore.
Qed.

(** C7. Every successful result holds one [recommendation] and one
    [recommendation_reason], and the pair is the row of the table for
    the result's [risk_label]. *)
Theorem recommendation_by_label ok parsed r :
  analyze_apk uni_alnum ok parsed = Ret r →
  dict_get r "ok" = Some (PBool true) →
  ∃ label recommendation reason,
    dict_get r "risk_label" = Some (PStr label)
    ∧ table_lookup label = Some (recommendation, reason)
    ∧ recommend label = (recommendation, reason)
    ∧ dict_get r "recommendation" = Some (PStr recommendation)
    ∧ dict_get r "recommendation_reason" = Some (PStr reason)
    ∧ key_count r "recommendation" = 1%nat
    ∧ key_count r "recommendation_reason" = 1%nat
    ∧ length recommendation_table = 3%nat.
Proof.
  intros H Hok. destruct (analyze_success_parsed _ _ _ H Hok) as (a & -> & ->).
  analyze_inv H.
  exists (label_of (cap risk)), recommendation, recommendation_reason.
  repeat split; try done.
  rewrite <- Erec. apply recommend_table, label_of_cases.
Qed.

(** C10. The [debuggable] entry of a result is [None] or a boolean.  When
    [is_debuggable] raises it is [None], and then the first rule does not
    fire: its reason is absent, and score and reasons are those of the
    same package with the flag [False]. *)
Theorem debuggable_flag_or_none a r :
  analyze_apk uni_alnum true (Ret a) = Ret r →
  (dict_get r "debuggable" = Some PNone
   ∨ (∃ b, dict_get r "debuggable" = Some (PBool b)))
  ∧ match is_debuggable a with
    | Ret _ => True
    | Raise _ =>
        dict_get r "debuggable" = Some PNone
        ∧ ∃ perms reasons,
            permissions_of a = Ret perms
            ∧ dict_get r "risk_reasons" = Some (str_list reasons)
            ∧ (reason_debuggable ∉ reasons)
            ∧ reasons = (score_rules (Some false) (dangerous_of perms)
                           (urls_of uni_alnum a)).2
            ∧ dict_get r "risk_score"
              = Some (PInt (cap (score_rules (Some false) (dangerous_of perms)
                                   (urls_of uni_alnum a)).1))
    end.
Proof.
  intros H. analyze_inv H. split.
  - change (dict_get _ "debuggable") with (Some (flag_val (debuggable_of a))).
    destruct (debuggable_of a) as [b|]; simpl; eauto.
  - destruct (is_debuggable a) as [v|e] eqn:Hd; [done|].
    assert (debuggable_of a = None) as Hn by (unfold debuggable_of; by rewrite Hd).
    rewrite Hn in *. split; [done|].
    exists got3, reasons. rewrite <- score_rules_unknown_flag, Escore.
    repeat split; try done.
    change reasons with (risk, reasons).2. rewrite <- Escore.
    by apply debuggable_reason_only_from_flag.
Qed.

(** ** The scenario of the specification *)

Lemma Some_str_list_inj l1 l2 : Some (str_list l1) = Some (str_list l2) → l1 = l2.
Proof. intros [= H]. apply str_list_inj. unfold str_list. by rewrite H. Qed.

Lemma py_any_sorted (f : pystr → bool) l : py_any f (py_sorted l) = py_any f l.
Proof.
  unfold py_any. apply eq_true_iff_eq. rewrite !existsb_exists.
  split; intros (x & Hin & Hf); exists x; split; try done;
    apply list_elem_of_In; apply list_elem_of_In in Hin;
    by apply elem_of_py_sorted.
Qed.

Lemma length_py_sorted l : length (py_sorted l) = length l.
Proof. apply Permutation_length, py_sorted_Permutation. Qed.

Lemma scenario_rules dangerous_perms urls :
  length dangerous_perms = 4%nat →
  py_any (contains (py "SYSTEM_ALERT_WINDOW")) dangerous_perms = true →
  py_any (contains (py "REQUEST_INSTALL_PACKAGES")) dangerous_perms = true →
  length urls = 20%nat →
  score_rules (Some true) dangerous_perms urls
  = (1 + 2 + 1 + 1 + 1,
     [reason_debuggable; reason_multiple; reason_urls; reason_overlay;
      reason_install]).
Proof.
  intros Hd Ha Hi Hu. unfold score_rules. rewrite Hd, Ha, Hi, Hu. reflexivity.
Qed.

(** C4. A result showing [debuggable] true, four dangerous permissions,
    one containing SYSTEM_ALERT_WINDOW and one containing
    REQUEST_INSTALL_PACKAGES, and twenty URLs has score 1+2+1+1+1 = 6 and
    label High. *)
Theorem scenario_score_high a r dangerous urls :
  analyze_apk uni_alnum true (Ret a) = Ret r →
  dict_get r "debuggable" = Some (PBool true) →
  dict_get r "dangerous_permissions" = Some (str_list dangerous) →
  length dangerous = 4%nat →
  (∃ p, p ∈ dangerous ∧ contains (py "SYSTEM_ALERT_WINDOW") p = true) →
  (∃ p, p ∈ dangerous ∧ contains (py "REQUEST_INSTALL_PACKAGES") p = true) →
  dict_get r "urls" = Some (str_list urls) →
  length urls = 20%nat →
  dict_get r "risk_score" = Some (PInt (1 + 2 + 1 + 1 + 1))
  ∧ 1 + 2 + 1 + 1 + 1 = 6
  ∧ dict_get r "risk_label" = Some (PStr (py "High")).
Proof.
  intros H Hdbg Hdang Hlen (p1 & Hp1 & Hc1) (p2 & Hp2 & Hc2) Hurls Hulen.
  analyze_inv H.
  change (Some (flag_val (debuggable_of a)) = Some (PBool true)) in Hdbg.
  change (Some (str_list (py_sorted (dangerous_of got3)))
          = Some (str_list dangerous)) in Hdang.
  change (Some (str_list (urls_of uni_alnum a)) = Some (str_list urls)) in Hurls.
  apply Some_str_list_inj in Hdang. apply Some_str_list_inj in Hurls.
  assert (debuggable_of a = Some true) as Hflag.
  { destruct (debuggable_of a) as [[]|]; simpl in Hdbg; congruence. }
  rewrite Hflag, Hurls in Escore.
  rewrite scenario_rules in Escore; try done.
  - injection Escore as <- <-. by vm_compute.
  - by rewrite <- length_py_sorted, Hdang.
  - rewrite <- py_any_sorted, Hdang. apply existsb_exists.
    exists p1. split; [by apply list_elem_of_In|done].
  - rewrite <- py_any_sorted, Hdang. apply existsb_exists.
    exists p2. split; [by apply list_elem_of_In|done].
Qed.

(** ** Permissions *)

Lemma permissions_of_spec a perms :
  permissions_of a = Ret perms →
  Sorted str_le perms ∧ NoDup perms
  ∧ ∃ raw, get_permissions a = Ret raw ∧ ∀ p, p ∈ perms ↔ p ∈ default [] raw.
Proof.
  unfold permissions_of. destruct (get_permissions a) as [raw|]; [|done].
  simpl. intros [= <-]. split; [apply py_sorted_Sorted|].
  split; [apply py_sorted_NoDup, NoDup_py_set|].
  exists raw. split; [done|]. intros p.
  by rewrite elem_of_py_sorted, elem_of_py_set.
Qed.

(** C5. In every successful result both permission lists ascend strictly
    (sorted, no duplicates), the dangerous ones are among the
    permissions, and a permission is dangerous exactly when one of the
    eighteen prefixes, all under [android.permission.], starts it. *)
Theorem dangerous_permissions_subset_sorted a r :
  analyze_apk uni_alnum true (Ret a) = Ret r →
  ∃ permissions dangerous,
    dict_get r "permissions" = Some (str_list permissions)
    ∧ dict_get r "dangerous_permissions" = Some (str_list dangerous)
    ∧ dangerous ⊆ permissions
    ∧ Sorted str_le permissions ∧ NoDup permissions
    ∧ Sorted str_le dangerous ∧ NoDup dangerous
    ∧ StronglySorted str_lt permissions ∧ StronglySorted str_lt dangerous
    ∧ (∀ p, p ∈ dangerous ↔
            p ∈ permissions
            ∧ ∃ dp, dp ∈ dangerous_perm_prefixes ∧ dp `prefix_of` p)
    ∧ length dangerous_perm_prefixes = 18%nat
    ∧ NoDup dangerous_perm_prefixes
    ∧ Forall (λ dp, py "android.permission." `prefix_of` dp)
        dangerous_perm_prefixes.
Proof.
  intros H. analyze_inv H.
  destruct (permissions_of_spec _ _ Eget3) as (Hs & Hnd & _).
  assert (Sorted str_le (dangerous_of got3)) as Hds
    by (by apply filter_Sorted).
  assert (NoDup (dangerous_of got3)) as Hdn by (by apply NoDup_filter).
  exists got3, (py_sorted (dangerous_of got3)).
  rewrite (py_sorted_id _ Hds).
  split; [reflexivity|]. split; [reflexivity|].
  split. { intros p [Hp Hq]%list_elem_of_filter. exact Hq. }
  split; [done|]. split; [done|]. split; [done|]. split; [done|].
  split; [by apply Sorted_NoDup_strict|].
  split; [by apply Sorted_NoDup_strict|].
  split.
  { intros p. unfold dangerous_of.
    rewrite list_elem_of_filter, is_dangerous_spec. tauto. }
  split; [reflexivity|].
  split; refine (bool_decide_unpack _ _); by vm_compute.
Qed.

(** ** URLs *)

Lemma manifest_urls_text a x m :
  get_android_manifest_xml a = Ret x →
  toxml x = Some (Ret (PStr m)) ∨ (toxml x = None ∧ xml_str x = Ret m) →
  manifest_urls uni_alnum a = findall uni_alnum m.
Proof.
  intros Hx Hm. unfold manifest_urls. rewrite Hx. simpl.
  assert (match toxml x with
          | Some called => called
          | None => PStr <$> xml_str x
          end = Ret (PStr m)) as ->.
  { destruct Hm as [->|[-> ->]]; done. }
  simpl. destruct m; done.
Qed.

Lemma elem_of_file_urls a files u :
  get_files a = Ret files →
  u ∈ file_urls uni_alnum a ↔ ∃ f, PStr f ∈ files ∧ u ∈ findall uni_alnum f.
Proof.
  intros Hf. unfold file_urls. rewrite Hf. simpl.
  rewrite list_elem_of_In, in_concat. split.
  - intros (l & Hl & Hu). apply list_elem_of_In, list_elem_of_fmap in Hl.
    destruct Hl as (v & -> & Hv). destruct v; try (by destruct Hu).
    eexists. split; [done|]. by apply list_elem_of_In.
  - intros (f & Hf' & Hu). exists (findall uni_alnum f). split.
    + apply list_elem_of_In, list_elem_of_fmap. by exists (PStr f).
    + by apply list_elem_of_In.
Qed.

(** C6. The [urls] of a result are the matches in the manifest text and
    in the file names that are strings, pooled; the list has no
    duplicates and ascends; any order in which the pooled set is
    enumerated sorts to this list, and a second run returns the same
    result. *)
Theorem urls_pooled_sorted_deterministic a r x m files :
  analyze_apk uni_alnum true (Ret a) = Ret r →
  get_android_manifest_xml a = Ret x →
  toxml x = Some (Ret (PStr m)) ∨ (toxml x = None ∧ xml_str x = Ret m) →
  get_files a = Ret files →
  ∃ urls,
    dict_get r "urls" = Some (str_list urls)
    ∧ (∀ u, u ∈ urls ↔
            u ∈ findall uni_alnum m
            ∨ ∃ f, PStr f ∈ files ∧ u ∈ findall uni_alnum f)
    ∧ NoDup urls ∧ Sorted str_le urls ∧ StronglySorted str_lt urls
    ∧ (∀ pool,
         NoDup pool →
         (∀ u, u ∈ pool ↔
               u ∈ findall uni_alnum m
               ∨ ∃ f, PStr f ∈ files ∧ u ∈ findall uni_alnum f) →
         py_sorted pool = urls)
    ∧ (∀ r', analyze_apk uni_alnum true (Ret a) = Ret r' → r' = r).
Proof.
  intros H Hx Hm Hf.
  assert (∀ u, u ∈ manifest_urls uni_alnum a ++ file_urls uni_alnum a ↔
               u ∈ findall uni_alnum m
               ∨ ∃ f, PStr f ∈ files ∧ u ∈ findall uni_alnum f) as Hpool.
  { intros u. rewrite elem_of_app, (manifest_urls_text a x m Hx Hm).
    by rewrite (elem_of_file_urls a files u Hf). }
  assert (NoDup (urls_of uni_alnum a)) as Hnd
    by apply py_sorted_NoDup, NoDup_py_set.
  assert (Sorted str_le (urls_of uni_alnum a)) as Hs by apply py_sorted_Sorted.
  exists (urls_of uni_alnum a).
  split. { clear - H. analyze_inv H. reflexivity. }
  split. { intros u. unfold urls_of. by rewrite elem_of_py_sorted, elem_of_py_set. }
  split; [done|]. split; [done|]. split; [by apply Sorted_NoDup_strict|].
  split.
  - intros pool Hpn Hpe. apply sorted_set_enumeration; [done|].
    intros u. by rewrite Hpe, Hpool.
  - intros r' Hr'. congruence.
Qed.

(** ** Which failures [analyze_apk] absorbs *)

(** Whatever the seven getters called under [try] do, a run in which the
    four metadata getters and [get_permissions] return gives a result
    with [ok] true. *)
Lemma guarded_getters_never_abort a pn an vn vc raw :
  get_package a = Ret pn → get_app_name a = Ret an →
  get_androidversion_name a = Ret vn → get_androidversion_code a = Ret vc →
  get_permissions a = Ret raw →
  ∃ r, analyze_apk uni_alnum true (Ret a) = Ret r
       ∧ dict_get r "ok" = Some (PBool true)
       ∧ dict_get r "package_name" = Some pn
       ∧ dict_get r "app_name" = Some an
       ∧ dict_get r "version_name" = Some vn
       ∧ dict_get r "version_code" = Some vc
       ∧ dict_get r "debuggable" = Some (flag_val (debuggable_of a))
       ∧ dict_get r "receivers" = Some (or_empty (get_receivers a))
       ∧ dict_get r "services" = Some (or_empty (get_services a))
       ∧ dict_get r "activities" = Some (or_empty (get_activities a))
       ∧ dict_get r "certificates" = Some (certificates_of a).
Proof.
  intros Hpn Han Hvn Hvc Hraw.
  unfold analyze_apk, permissions_of. simpl.
  rewrite Hpn, Han, Hvn, Hvc, Hraw. simpl.
  destruct (score_rules _ _ _) as [risk reasons].
  destruct (recommend _) as [recommendation recommendation_reason].
  eexists. split; [reflexivity|]. repeat split.
Qed.

(** A getter under [try] that raises leaves its default. *)
Lemma guarded_defaults a :
  (∀ e, is_debuggable a = Raise e → debuggable_of a = None)
  ∧ (∀ e, get_receivers a = Raise e → or_empty (get_receivers a) = PList [])
  ∧ (∀ e, get_services a = Raise e → or_empty (get_services a) = PList [])
  ∧ (∀ e, get_activities a = Raise e → or_empty (get_activities a) = PList [])
  ∧ (∀ e, get_android_manifest_xml a = Raise e → manifest_urls uni_alnum a = [])
  ∧ (∀ e, get_files a = Raise e → file_urls uni_alnum a = [])
  ∧ (∀ e, get_certificates a = Raise e → certificates_of a = PList []).
Proof.
  unfold debuggable_of, or_empty, manifest_urls, file_urls, certificates_of.
  repeat split; intros e ->; reflexivity.
Qed.

(** The other five getters are called outside any [try]: the first of
    them that raises ends [analyze_apk] with its exception. *)
Lemma unguarded_getters_abort a e :
  get_package a = Raise e
  ∨ (∃ pn, get_package a = Ret pn ∧ get_app_name a = Raise e)
  ∨ (∃ pn an, get_package a = Ret pn ∧ get_app_name a = Ret an
              ∧ get_androidversion_name a = Raise e)
  ∨ (∃ pn an vn, get_package a = Ret pn ∧ get_app_name a = Ret an
                 ∧ get_androidversion_name a = Ret vn
                 ∧ get_androidversion_code a = Raise e)
  ∨ (∃ pn an vn vc, get_package a = Ret pn ∧ get_app_name a = Ret an
                    ∧ get_androidversion_name a = Ret vn
                    ∧ get_androidversion_code a = Ret vc
                    ∧ get_permissions a = Raise e) →
  analyze_apk uni_alnum true (Ret a) = Raise e.
Proof.
  unfold analyze_apk, permissions_of. simpl.
  intros [H|[(pn & Hpn & H)|[(pn & an & Hpn & Han & H)|
    [(pn & an & vn & Hpn & Han & Hvn & H)
    |(pn & an & vn & vc & Hpn & Han & Hvn & Hvc & H)]]]];
    repeat match goal with Hg : _ = Ret _ |- _ => rewrite Hg; clear Hg; simpl end;
    by rewrite H.
Qed.

End Properties.

(** * The model on concrete packages *)

(** C1. On a package whose [get_app_name] raises, [analyze_apk] does not
    return a result with [ok] true and a default in that field: the
    exception leaves the function.  The same package with a failure in a
    getter called under [try] ([get_activities] in [sample_apk]) is
    analysed to the end. *)
Theorem app_name_failure_aborts_analysis :
  analyze_apk ascii_alnum true (Ret apk_app_name_raises)
  = Raise (py "resources.arsc is damaged")
  ∧ (∀ r, analyze_apk ascii_alnum true (Ret apk_app_name_raises) ≠ Ret r)
  ∧ ∃ r, analyze_apk ascii_alnum true (Ret sample_apk) = Ret r
         ∧ dict_get r "ok" = Some (PBool true)
         ∧ dict_get r "activities" = Some (PList []).
Proof.
  split; [reflexivity|]. split; [intros r; discriminate|].
  exists (run sample_apk). split; [vm_compute; reflexivity|].
  split; vm_compute; reflexivity.
Qed.

Example sample_run_urls :
  dict_get (run sample_apk) "urls"
  = Some (str_list [py "HTTPS://Example.com/x?y=1'"; py "http://b.org";
                    py "http://cdn.example.com/a.js"]).
Proof. vm_compute. reflexivity. Qed.

Example sample_run_permissions :
  dict_get (run sample_apk) "dangerous_permissions"
  = Some (str_list (py <$> [ "android.permission.CAMERA";
                             "android.permission.SEND_SMS";
                             "android.permission.SYSTEM_ALERT_WINDOW" ]%string))
  ∧ dict_get (run sample_apk) "risk_score" = Some (PInt 4)
  ∧ dict_get (run sample_apk) "risk_label" = Some (PStr (py "Medium")).
Proof. repeat split; vm_compute; reflexivity. Qed.

Example findall_greedy_and_case :
  findall ascii_alnum (py "http://a.http://b https://c<HTTPS://D>https:/e httpss://f")
  = [py "http://a.http://b"; py "https://c"; py "HTTPS://D"]
  ∧ findall ascii_alnum [104; 116; 116; 112; 383; 58; 47; 47; 120]%N
    = [[104; 116; 116; 112; 383; 58; 47; 47; 120]%N].
Proof. split; vm_compute; reflexivity. Qed.

Example to_jsonable_sample :
  to_jsonable ascii_decode sample_value
  = Ret (PDict [ (KStr (py "1"), PList [PStr (py "hi"); PNone]);
                 (KStr (py "o"), PStr (py "<o>")) ]).
Proof. vm_compute. reflexivity. Qed.

(** ** Instances of the theorems *)

Lemma sample_run_returns :
  analyze_apk ascii_alnum true (Ret sample_apk) = Ret (run sample_apk)
  ∧ dict_get (run sample_apk) "ok" = Some (PBool true).
Proof. split; vm_compute; reflexivity. Defined.

Lemma risk_score_range_and_label_witness :
  ∃ score,
    dict_get (run sample_apk) "risk_score" = Some (PInt score) ∧ 0 ≤ score ≤ 10.
Proof.
  destruct sample_run_returns as [Hrun Hok].
  destruct (risk_score_range_and_label ascii_alnum true (Ret sample_apk)
              (run sample_apk) Hrun Hok) as (score & Hs & Hr & _).
  exists score. split; [exact Hs|exact Hr].
Defined.

Lemma scenario_score_high_witness :
  dict_get (run scenario_apk) "risk_score" = Some (PInt (1 + 2 + 1 + 1 + 1))
  ∧ 1 + 2 + 1 + 1 + 1 = 6
  ∧ dict_get (run scenario_apk) "risk_label" = Some (PStr (py "High")).
Proof.
  apply (scenario_score_high ascii_alnum scenario_apk (run scenario_apk)
           scenario_perms scenario_urls).
  - vm_compute. reflexivity.
  - vm_compute. reflexivity.
  - vm_compute. reflexivity.
  - reflexivity.
  - exists (py "android.permission.SYSTEM_ALERT_WINDOW").
    split; [|vm_compute; reflexivity].
    refine (bool_decide_unpack _ _). vm_compute. exact I.
  - exists (py "android.permission.REQUEST_INSTALL_PACKAGES").
    split; [|vm_compute; reflexivity].
    refine (bool_decide_unpack _ _). vm_compute. exact I.
  - vm_compute. reflexivity.
  - reflexivity.
Defined.

Lemma dangerous_permissions_subset_sorted_witness :
  ∃ permissions dangerous,
    dict_get (run sample_apk) "permissions" = Some (str_list permissions)
    ∧ dict_get (run sample_apk) "dangerous_permissions"
      = Some (str_list dangerous)
    ∧ dangerous ⊆ permissions.
Proof.
  destruct sample_run_returns as [Hrun _].
  destruct (dangerous_permissions_subset_sorted ascii_alnum sample_apk
              (run sample_apk) Hrun) as (ps & ds & Hp & Hd & Hsub & _).
  exists ps, ds. split; [exact Hp|]. split; [exact Hd|exact Hsub].
Defined.

Lemma urls_pooled_sorted_deterministic_witness :
  ∃ urls,
    dict_get (run sample_apk) "urls" = Some (str_list urls)
    ∧ NoDup urls ∧ Sorted str_le urls.
Proof.
  destruct sample_run_returns as [Hrun _].
  destruct (urls_pooled_sorted_deterministic ascii_alnum sample_apk
              (run sample_apk)
              {| toxml := Some (Ret (PStr sample_manifest));
                 xml_str := Ret (py "<obj>") |}
              sample_manifest sample_files Hrun eq_refl
              (or_introl eq_refl) eq_refl)
    as (urls & Hu & _ & Hnd & Hs & _).
  exists urls. split; [exact Hu|]. split; [exact Hnd|exact Hs].
Defined.

Lemma recommendation_by_label_witness :
  ∃ label recommendation reason,
    dict_get (run sample_apk) "risk_label" = Some (PStr label)
    ∧ table_lookup label = Some (recommendation, reason)
    ∧ dict_get (run sample_apk) "recommendation" = Some (PStr recommendation).
Proof.
  destruct sample_run_returns as [Hrun Hok].
  destruct (recommendation_by_label ascii_alnum true (Ret sample_apk)
              (run sample_apk) Hrun Hok)
    as (label & rec & reason & Hl & Ht & _ & Hr & _).
  exists label, rec, reason. split; [exact Hl|]. split; [exact Ht|exact Hr].
Defined.

Lemma score_zero_iff_no_reasons_witness :
  ∃ score reasons,
    dict_get (run sample_apk) "risk_score" = Some (PInt score)
    ∧ dict_get (run sample_apk) "risk_reasons" = Some (str_list reasons)
    ∧ (score = 0 ↔ reasons = []).
Proof.
  destruct sample_run_returns as [Hrun Hok].
  destruct (score_zero_iff_no_reasons ascii_alnum true (Ret sample_apk)
              (run sample_apk) Hrun Hok)
    as (score & reasons & Hs & Hr & Hz & _).
  exists score, reasons. split; [exact Hs|]. split; [exact Hr|exact Hz].
Defined.

Lemma debuggable_flag_or_none_witness :
  dict_get (run apk_debuggable_raises) "debuggable" = Some PNone.
Proof.
  assert (analyze_apk ascii_alnum true (Ret apk_debuggable_raises)
          = Ret (run apk_debuggable_raises)) as Hrun
    by (vm_compute; reflexivity).
  destruct (debuggable_flag_or_none ascii_alnum apk_debuggable_raises
              (run apk_debuggable_raises) Hrun) as [_ Hraise].
  simpl in Hraise. destruct Hraise as [Hnone _]. exact Hnone.
Defined.

(** * Further properties of the code *)

(** ** The URL pattern *)

Section UrlPattern.

Variable uni_alnum : N → bool.

Lemma url_run_spec s :
  ∃ post, s = url_run uni_alnum s ++ post
          ∧ Forall (λ c, url_char uni_alnum c = true) (url_run uni_alnum s)
          ∧ stops_match uni_alnum post.
Proof.
  induction s as [|c s (post & Hs & Hall & Hstop)]; simpl.
  - exists []. by repeat split.
  - destruct (url_char uni_alnum c) eqn:Hc.
    + exists post. split; [simpl; congruence|]. split; [by constructor|done].
    + exists (c :: s). by repeat split.
Qed.

Lemma match_tail_spec r m :
  match_tail uni_alnum r = Some m →
  ∃ run post,
    m = py "://" ++ run ∧ r = m ++ post ∧ run ≠ []
    ∧ Forall (λ c, url_char uni_alnum c = true) run
    ∧ stops_match uni_alnum post.
Proof.
  unfold match_tail. destruct r as [|c1 [|c2 [|c3 r]]]; try done.
  destruct (c1 =? 58)%N eqn:H1; [|done].
  destruct (c2 =? 47)%N eqn:H2; [|done].
  destruct (c3 =? 47)%N eqn:H3; [|done].
  apply N.eqb_eq in H1, H2, H3. subst. simpl.
  destruct (url_run_spec r) as (post & Hr & Hall & Hstop).
  destruct (url_run uni_alnum r) as [|c run] eqn:Hrun; [done|].
  intros [= <-]. exists (c :: run), post.
  split; [done|]. split; [simpl in *; congruence|]. by repeat split.
Qed.

Lemma match_url_spec s m :
  match_url uni_alnum s = Some m →
  ∃ scheme run post,
    m = scheme ++ py "://" ++ run ∧ s = m ++ post
    ∧ is_http scheme = true ∧ run ≠ []
    ∧ Forall (λ c, url_char uni_alnum c = true) run
    ∧ stops_match uni_alnum post.
Proof.
  unfold match_url. destruct s as [|c1 [|c2 [|c3 [|c4 r]]]]; try done.
  destruct (ieq "hH" c1 && ieq "tT" c2 && ieq "tT" c3 && ieq "pP" c4)
    eqn:Hscheme; [|done].
  assert (∀ scheme' r' t,
            match_tail uni_alnum r' = Some t → r = scheme' ++ r' →
            is_http ([c1; c2; c3; c4] ++ scheme') = true →
            ∃ scheme run post,
              c1 :: c2 :: c3 :: c4 :: scheme' ++ t = scheme ++ py "://" ++ run
              ∧ c1 :: c2 :: c3 :: c4 :: r
                = (c1 :: c2 :: c3 :: c4 :: scheme' ++ t) ++ post
              ∧ is_http scheme = true ∧ run ≠ []
              ∧ Forall (λ c, url_char uni_alnum c = true) run
              ∧ stops_match uni_alnum post) as Htail.
  { intros scheme' r' t (run & post & -> & -> & Hne & Hall & Hstop)%match_tail_spec
      -> Hhttp.
    exists ([c1; c2; c3; c4] ++ scheme'), run, post.
    split; [by rewrite <- !app_assoc|].
    split; [simpl; by rewrite <- !app_assoc|]. auto. }
  destruct r as [|c5 r'] eqn:Hr; [done|].
  assert (is_http [c1; c2; c3; c4] = true) as Hfour by done.
  destruct (match_tail uni_alnum (c5 :: r')) as [t0|] eqn:Ht0;
    destruct (match_tail uni_alnum r') as [t1|] eqn:Ht1;
    destruct (ieq_s c5) eqn:Hs; simpl; try done; intros [= <-];
    try (apply (Htail [] (c5 :: r') t0 Ht0 eq_refl); exact Hfour);
    apply (Htail [c5] r' t1 Ht1 eq_refl); simpl; by rewrite Hscheme, Hs.
Qed.

Lemma findall_from_cons k c s :
  findall_from uni_alnum k (c :: s)
  = match k with
    | S k' => findall_from uni_alnum k' s
    | O =>
        match match_url uni_alnum (c :: s) with
        | Some m => m :: findall_from uni_alnum (length m - 1) s
        | None => findall_from uni_alnum 0 s
        end
    end.
Proof. reflexivity. Qed.

Lemma elem_of_findall_from k s u :
  u ∈ findall_from uni_alnum k s →
  ∃ pre post, s = pre ++ u ++ post ∧ match_url uni_alnum (u ++ post) = Some u.
Proof.
  revert k. induction s as [|c s IH]; intros k; [by intros ?%elem_of_nil|].
  rewrite findall_from_cons.
  assert (∀ k', u ∈ findall_from uni_alnum k' s →
            ∃ pre post, c :: s = pre ++ u ++ post
                        ∧ match_url uni_alnum (u ++ post) = Some u) as Hrest.
  { intros k' (pre & post & -> & Hm)%IH. by exists (c :: pre), post. }
  destruct k as [|k]; [|apply Hrest].
  destruct (match_url uni_alnum (c :: s)) as [m|] eqn:Hm; [|apply Hrest].
  intros [->|Hin]%elem_of_cons; [|by eapply Hrest].
  destruct (match_url_spec _ _ Hm) as (_ & _ & post & _ & Hs & _).
  exists [], post. simpl. split; [done|]. by rewrite <- Hs.
Qed.

(** X1. Every string [findall] returns is a piece of the text made of
    the scheme [http] or [https] in any case, [://], and one or more
    characters of the class; the match is greedy, so the character
    after it, if any, is outside the class. *)
Theorem findall_matches_shape s u :
  u ∈ findall uni_alnum s →
  ∃ pre scheme run post,
    s = pre ++ u ++ post
    ∧ u = scheme ++ py "://" ++ run
    ∧ is_http scheme = true
    ∧ run ≠ []
    ∧ Forall (λ c, url_char uni_alnum c = true) run
    ∧ stops_match uni_alnum post.
Proof.
  intros (pre & post & -> & Hm)%elem_of_findall_from.
  destruct (match_url_spec _ _ Hm) as (scheme & run & post' & Hu & Hs & Hrest).
  apply app_inv_head in Hs. subst post'.
  by exists pre, scheme, run, post.
Qed.


Lemma url_run_all run :
  Forall (λ c, url_char uni_alnum c = true) run → url_run uni_alnum run = run.
Proof. induction 1 as [|c run Hc _ IH]; simpl; [done|]. by rewrite Hc, IH. Qed.

Lemma match_tail_whole run :
  run ≠ [] → Forall (λ c, url_char uni_alnum c = true) run →
  match_tail uni_alnum (py "://" ++ run) = Some (py "://" ++ run).
Proof.
  intros Hne Hall. change (py "://" ++ run) with (58 :: 47 :: 47 :: run)%N.
  unfold match_tail. simpl. rewrite (url_run_all run Hall).
  by destruct run.
Qed.

Lemma match_url_whole scheme run :
  is_http scheme = true → run ≠ [] →
  Forall (λ c, url_char uni_alnum c = true) run →
  match_url uni_alnum (scheme ++ py "://" ++ run)
  = Some (scheme ++ py "://" ++ run).
Proof.
  intros Hs Hne Hall.
  pose proof (match_tail_whole run Hne Hall) as Ht.
  destruct scheme as [|c1 [|c2 [|c3 [|c4 [|c5 [|c6 scheme]]]]]]; try done.
  - simpl in Hs. unfold match_url.
    change ([c1; c2; c3; c4] ++ py "://" ++ run)
      with (c1 :: c2 :: c3 :: c4 :: 58%N :: (47 :: 47 :: run)%N).
    cbv beta iota. rewrite Hs.
    change (58%N :: (47 :: 47 :: run)%N) with (py "://" ++ run) in *.
    change (ieq_s 58) with false. cbv beta iota. by rewrite Ht.
  - simpl in Hs. apply andb_true_iff in Hs as [Hs Hs5]. unfold match_url.
    change ([c1; c2; c3; c4; c5] ++ py "://" ++ run)
      with (c1 :: c2 :: c3 :: c4 :: c5 :: (py "://" ++ run)).
    cbv beta iota. by rewrite Hs, Hs5, Ht.
Qed.

Lemma findall_from_skip_all k s :
  (length s ≤ k)%nat → findall_from uni_alnum k s = [].
Proof.
  revert k. induction s as [|c s IH]; intros k Hk; [done|].
  rewrite findall_from_cons. simpl in Hk.
  destruct k as [|k]; [lia|]. apply IH. lia.
Qed.

(** X2. A text that is exactly a scheme, [://] and one or more characters
    of the class is returned whole, as the only match. *)
Theorem findall_whole_url scheme run :
  is_http scheme = true → run ≠ [] →
  Forall (λ c, url_char uni_alnum c = true) run →
  findall uni_alnum (scheme ++ py "://" ++ run) = [scheme ++ py "://" ++ run].
Proof.
  intros Hs Hne Hall. unfold findall.
  pose proof (match_url_whole scheme run Hs Hne Hall) as Hm.
  destruct (scheme ++ py "://" ++ run) as [|c s] eqn:Hu.
  { by destruct scheme. }
  rewrite findall_from_cons, Hm.
  rewrite findall_from_skip_all; [done|]. simpl. lia.
Qed.

(** X3. The matches are returned in the order they stand in the text and
    do not overlap: the text is the matches, each after a gap, and a
    rest. *)
Theorem findall_in_order_disjoint s :
  ∃ gaps rest,
    length gaps = length (findall uni_alnum s)
    ∧ s = concat (zip_with app gaps (findall uni_alnum s)) ++ rest.
Proof.
  unfold findall.
  assert (∀ k, (k ≤ length s)%nat →
            ∃ gaps rest,
              length gaps = length (findall_from uni_alnum k s)
              ∧ drop k s
                = concat (zip_with app gaps (findall_from uni_alnum k s))
                  ++ rest) as Hgen; [|by apply (Hgen 0%nat); lia].
  induction s as [|c s IH]; intros k Hk.
  { exists [], []. by destruct k. }
  rewrite findall_from_cons. simpl in Hk. destruct k as [|k].
  - destruct (match_url uni_alnum (c :: s)) as [m|] eqn:Hm.
    + destruct (match_url_spec _ _ Hm) as (sch & run & post & Hshape & Hs & _).
      destruct m as [|c' m]; [by destruct sch|]. simpl in Hs.
      injection Hs as <- ->.
      destruct (IH (length m)) as (gaps & rest & Hlen & Hdrop).
      { rewrite length_app. lia. }
      rewrite drop_app_length in Hdrop.
      exists ([] :: gaps), rest. simpl. rewrite Nat.sub_0_r.
      split; [by rewrite Hlen|]. rewrite <- app_assoc. by rewrite <- Hdrop.
    + destruct (IH 0%nat) as (gaps & rest & Hlen & Hdrop); [lia|].
      rewrite drop_0 in *.
      destruct gaps as [|g gaps], (findall_from uni_alnum 0 s) as [|u us];
        try done.
      * exists [], (c :: rest). simpl in *. by rewrite Hdrop.
      * exists ((c :: g) :: gaps), rest. simpl in *. by rewrite Hdrop.
  - simpl. apply IH. lia.
Qed.

End UrlPattern.

(** ** The rules and what the result shows *)

Lemma py_any_spec {A} (f : A → bool) l :
  py_any f l = true ↔ ∃ p, p ∈ l ∧ f p = true.
Proof.
  unfold py_any. rewrite existsb_exists.
  split; intros (p & Hp & Hf); exists p; split; try done;
    by apply list_elem_of_In.
Qed.

Lemma flag_val_inj d1 d2 : flag_val d1 = flag_val d2 → d1 = d2.
Proof. destruct d1 as [[]|], d2 as [[]|]; simpl; congruence. Qed.

(** Decides whether a reason stands in a list of reasons, by running the
    comparison of the texts. *)
Ltac reason_mem :=
  match goal with
  | |- ?r ∈ ?l ↔ _ =>
      first
        [ assert (r ∈ l)
            by (refine (bool_decide_unpack _ _); vm_compute; exact I)
        | assert (r ∉ l)
            by (refine (proj1 (bool_decide_eq_false _) _);
                vm_compute; reflexivity) ]
  end.

Lemma score_rules_reasons debuggable dangerous_perms urls :
  let reasons := (score_rules debuggable dangerous_perms urls).2 in
  (reason_debuggable ∈ reasons ↔ debuggable = Some true)
  ∧ (reason_multiple ∈ reasons ↔ (3 ≤ length dangerous_perms)%nat)
  ∧ (reason_some ∈ reasons ↔ (1 ≤ length dangerous_perms ≤ 2)%nat)
  ∧ (reason_urls ∈ reasons ↔ (10 < length urls)%nat)
  ∧ (reason_overlay ∈ reasons ↔
       py_any (contains (py "SYSTEM_ALERT_WINDOW")) dangerous_perms = true)
  ∧ (reason_install ∈ reasons ↔
       py_any (contains (py "REQUEST_INSTALL_PACKAGES")) dangerous_perms = true).
Proof.
  unfold score_rules.
  destruct debuggable as [[]|];
    destruct (Z.leb_spec 3 (Z.of_nat (length dangerous_perms)));
    destruct (Z.ltb_spec 0 (Z.of_nat (length dangerous_perms)));
    destruct (Z.ltb_spec 10 (Z.of_nat (length urls)));
    destruct (py_any (contains (py "SYSTEM_ALERT_WINDOW")) dangerous_perms);
    destruct (py_any (contains (py "REQUEST_INSTALL_PACKAGES")) dangerous_perms);
    simpl; split_and!; reason_mem; split; intros; try done; try lia.
Qed.

Lemma score_rules_six debuggable dangerous_perms urls :
  (score_rules debuggable dangerous_perms urls).1 = 6 ↔
  debuggable = Some true
  ∧ (3 ≤ length dangerous_perms)%nat
  ∧ (10 < length urls)%nat
  ∧ py_any (contains (py "SYSTEM_ALERT_WINDOW")) dangerous_perms = true
  ∧ py_any (contains (py "REQUEST_INSTALL_PACKAGES")) dangerous_perms = true.
Proof.
  unfold score_rules.
  destruct debuggable as [[]|];
    destruct (Z.leb_spec 3 (Z.of_nat (length dangerous_perms)));
    destruct (Z.ltb_spec 0 (Z.of_nat (length dangerous_perms)));
    destruct (Z.ltb_spec 10 (Z.of_nat (length urls)));
    destruct (py_any (contains (py "SYSTEM_ALERT_WINDOW")) dangerous_perms);
    destruct (py_any (contains (py "REQUEST_INSTALL_PACKAGES")) dangerous_perms);
    simpl; split; intros; split_and?; try done; try lia;
    destruct_and?; try done; try lia.
Qed.

(** The score counts the reasons, the rule for three or more dangerous
    permissions counting twice. *)
Lemma score_rules_risk_length debuggable dangerous_perms urls :
  (score_rules debuggable dangerous_perms urls).1
  = Z.of_nat (length (score_rules debuggable dangerous_perms urls).2)
    + (if bool_decide
            (reason_multiple ∈ (score_rules debuggable dangerous_perms urls).2)
       then 1 else 0).
Proof.
  unfold score_rules.
  destruct (default false debuggable),
    (3 <=? Z.of_nat (length dangerous_perms)),
    (0 <? Z.of_nat (length dangerous_perms)),
    (10 <? Z.of_nat (length urls)),
    (py_any (contains (py "SYSTEM_ALERT_WINDOW")) dangerous_perms),
    (py_any (contains (py "REQUEST_INSTALL_PACKAGES")) dangerous_perms);
    by vm_compute.
Qed.

(** X4. The reasons come in the order of the rules, the two rules on the
    number of dangerous permissions never fire together, and the risk is
    one per reason, plus one more for "Multiple dangerous permissions". *)
Theorem reasons_follow_rule_order debuggable dangerous_perms urls :
  let '(risk, reasons) := score_rules debuggable dangerous_perms urls in
  reasons `sublist_of`
    [reason_debuggable; reason_multiple; reason_some; reason_urls;
     reason_overlay; reason_install]
  ∧ ¬ (reason_multiple ∈ reasons ∧ reason_some ∈ reasons)
  ∧ risk = Z.of_nat (length reasons)
           + (if bool_decide (reason_multiple ∈ reasons) then 1 else 0).
Proof.
  pose proof (score_rules_reasons debuggable dangerous_perms urls)
    as (_ & Hm & Hs & _).
  destruct (score_rules debuggable dangerous_perms urls) as [risk reasons]
    eqn:Hscore. simpl in Hm, Hs.
  split; [|split; [rewrite Hm, Hs; lia|]];
    unfold score_rules in Hscore;
    destruct (default false debuggable),
      (3 <=? Z.of_nat (length dangerous_perms)),
      (0 <? Z.of_nat (length dangerous_perms)),
      (10 <? Z.of_nat (length urls)),
      (py_any (contains (py "SYSTEM_ALERT_WINDOW")) dangerous_perms),
      (py_any (contains (py "REQUEST_INSTALL_PACKAGES")) dangerous_perms);
    injection Hscore as <- <-.
  all: simpl;
    first [ solve [repeat first [apply sublist_nil | apply sublist_skip
                                 | apply sublist_cons]]
          | by vm_compute ].
Qed.

Lemma contains_spec sub s :
  contains sub s = true ↔ ∃ pre post, s = pre ++ sub ++ post.
Proof.
  induction s as [|c s IH].
  - simpl. rewrite orb_false_r, startswith_prefix. split.
    + intros [k Hk]. symmetry in Hk. apply app_eq_nil in Hk as [-> ->].
      by exists [], [].
    + intros (pre & post & H). symmetry in H.
      apply app_eq_nil in H as [_ [-> _]%app_eq_nil]. apply prefix_nil.
  - change (contains sub (c :: s))
      with (startswith (c :: s) sub || contains sub s).
    rewrite orb_true_iff, startswith_prefix, IH. split.
    + intros [[k Hk]|(pre & post & ->)].
      * by exists [], k.
      * by exists (c :: pre), post.
    + intros ([|c' pre] & post & H).
      * left. by exists post.
      * right. injection H as -> ->. by exists pre, post.
Qed.

Lemma label_of_high score : label_of score = py "High" ↔ 6 ≤ score.
Proof.
  unfold label_of.
  destruct (Z.leb_spec score 2), (Z.leb_spec score 5); split; intros H';
    try lia; try done; by vm_compute in H'.
Qed.

(** Unfolds a run of [analyze_apk] on a parsed package that returned. *)
Ltac run_inv H :=
  unfold analyze_apk in H; simpl in H;
  repeat match type of H with
  | context [mbind _ ?m] =>
      let x := fresh "got" in
      let E := fresh "Eget" in
      destruct m as [x|] eqn:E; simpl in H; [|discriminate H]
  end;
  match type of H with
  | context [score_rules ?d ?p ?u] =>
      let Es := fresh "Escore" in
      destruct (score_rules d p u) as [risk reasons] eqn:Es
  end;
  match type of H with
  | context [recommend ?l] =>
      let Er := fresh "Erec" in
      destruct (recommend l) as [recommendation recommendation_reason] eqn:Er
  end;
  injection H as <-.

Section Reported.

Variable uni_alnum : N → bool.

(** Score, label and reasons of a result are the rules applied to the
    [debuggable], [dangerous_permissions] and [urls] the result shows. *)
Lemma result_rules a r d dangerous urls :
  analyze_apk uni_alnum true (Ret a) = Ret r →
  dict_get r "debuggable" = Some (flag_val d) →
  dict_get r "dangerous_permissions" = Some (str_list dangerous) →
  dict_get r "urls" = Some (str_list urls) →
  dict_get r "risk_score" = Some (PInt (score_rules d dangerous urls).1)
  ∧ dict_get r "risk_label"
    = Some (PStr (label_of (score_rules d dangerous urls).1))
  ∧ dict_get r "risk_reasons" = Some (str_list (score_rules d dangerous urls).2).
Proof.
  intros H Hd Hdang Hurls. run_inv H.
  change (Some (flag_val (debuggable_of a)) = Some (flag_val d)) in Hd.
  change (Some (str_list (py_sorted (dangerous_of got3)))
          = Some (str_list dangerous)) in Hdang.
  change (Some (str_list (urls_of uni_alnum a)) = Some (str_list urls)) in Hurls.
  apply Some_str_list_inj in Hdang. apply Some_str_list_inj in Hurls.
  injection Hd as Hd%flag_val_inj.
  destruct (permissions_of_spec _ _ Eget3) as (Hs & _ & _).
  rewrite py_sorted_id in Hdang by (by apply filter_Sorted).
  rewrite Hd, Hdang, Hurls in Escore. rewrite Escore. simpl.
  pose proof (score_rules_bounds d dangerous urls) as Hb.
  rewrite Escore in Hb. destruct Hb as (Hlen & _ & _).
  rewrite (cap_small risk) by lia. done.
Qed.

(** X5. Each reason stands in [risk_reasons] exactly when the entries of
    the same result show its cause: [debuggable] true; three or more
    dangerous permissions; one or two; more than ten URLs; a dangerous
    permission containing SYSTEM_ALERT_WINDOW; one containing
    REQUEST_INSTALL_PACKAGES. *)
Theorem reasons_match_reported_facts a r d dangerous urls reasons :
  analyze_apk uni_alnum true (Ret a) = Ret r →
  dict_get r "debuggable" = Some (flag_val d) →
  dict_get r "dangerous_permissions" = Some (str_list dangerous) →
  dict_get r "urls" = Some (str_list urls) →
  dict_get r "risk_reasons" = Some (str_list reasons) →
  (reason_debuggable ∈ reasons ↔ d = Some true)
  ∧ (reason_multiple ∈ reasons ↔ (3 ≤ length dangerous)%nat)
  ∧ (reason_some ∈ reasons ↔ (1 ≤ length dangerous ≤ 2)%nat)
  ∧ (reason_urls ∈ reasons ↔ (10 < length urls)%nat)
  ∧ (reason_overlay ∈ reasons ↔
       ∃ p, p ∈ dangerous ∧ contains (py "SYSTEM_ALERT_WINDOW") p = true)
  ∧ (reason_install ∈ reasons ↔
       ∃ p, p ∈ dangerous ∧ contains (py "REQUEST_INSTALL_PACKAGES") p = true).
Proof.
  intros H Hd Hdang Hurls Hreasons.
  destruct (result_rules a r d dangerous urls H Hd Hdang Hurls) as (_ & _ & Hr).
  rewrite Hreasons in Hr. apply Some_str_list_inj in Hr. subst reasons.
  rewrite <- !py_any_spec. apply score_rules_reasons.
Qed.

(** X6. The label of a result is High exactly when all five rules fire:
    the result shows [debuggable] true, at least three dangerous
    permissions, more than ten URLs, and dangerous permissions containing
    SYSTEM_ALERT_WINDOW and REQUEST_INSTALL_PACKAGES. *)
Theorem label_high_iff_all_rules a r d dangerous urls :
  analyze_apk uni_alnum true (Ret a) = Ret r →
  dict_get r "debuggable" = Some (flag_val d) →
  dict_get r "dangerous_permissions" = Some (str_list dangerous) →
  dict_get r "urls" = Some (str_list urls) →
  dict_get r "risk_label" = Some (PStr (py "High")) ↔
  d = Some true
  ∧ (3 ≤ length dangerous)%nat
  ∧ (10 < length urls)%nat
  ∧ (∃ p, p ∈ dangerous ∧ contains (py "SYSTEM_ALERT_WINDOW") p = true)
  ∧ (∃ p, p ∈ dangerous ∧ contains (py "REQUEST_INSTALL_PACKAGES") p = true).
Proof.
  intros H Hd Hdang Hurls.
  destruct (result_rules a r d dangerous urls H Hd Hdang Hurls) as (_ & Hl & _).
  rewrite Hl, <- !py_any_spec, <- score_rules_six.
  pose proof (score_rules_bounds d dangerous urls) as Hb.
  destruct (score_rules d dangerous urls) as [risk reasons]. simpl.
  destruct Hb as (Hlen & _ & _). split.
  - intros [= Hh]. apply label_of_high in Hh. lia.
  - intros ->. done.
Qed.

(** X7. A declared permission that starts with
    [android.permission.SYSTEM_ALERT_WINDOW] is listed as dangerous and
    brings the overlay reason, and likewise
    [android.permission.REQUEST_INSTALL_PACKAGES] the install reason;
    either way the score is at least 2. *)
Theorem marker_permission_is_reported a r raw p :
  analyze_apk uni_alnum true (Ret a) = Ret r →
  get_permissions a = Ret (Some raw) →
  p ∈ raw →
  py "android.permission.SYSTEM_ALERT_WINDOW" `prefix_of` p
  ∨ py "android.permission.REQUEST_INSTALL_PACKAGES" `prefix_of` p →
  ∃ dangerous reasons score,
    dict_get r "dangerous_permissions" = Some (str_list dangerous)
    ∧ p ∈ dangerous
    ∧ dict_get r "risk_reasons" = Some (str_list reasons)
    ∧ (py "android.permission.SYSTEM_ALERT_WINDOW" `prefix_of` p →
       reason_overlay ∈ reasons)
    ∧ (py "android.permission.REQUEST_INSTALL_PACKAGES" `prefix_of` p →
       reason_install ∈ reasons)
    ∧ dict_get r "risk_score" = Some (PInt score)
    ∧ 2 ≤ score.
Proof.
  intros H Hraw Hp Hprefix.
  assert (∃ perms, permissions_of a = Ret perms ∧ p ∈ perms) as (perms & Hperms & Hin).
  { unfold permissions_of. rewrite Hraw. simpl. eexists. split; [done|].
    by rewrite elem_of_py_sorted, elem_of_py_set. }
  assert (p ∈ dangerous_of perms) as Hdang.
  { apply list_elem_of_filter. split; [|done]. apply is_dangerous_spec.
    destruct Hprefix as [Hpre|Hpre]; eexists; (split; [|exact Hpre]);
      refine (bool_decide_unpack _ _); by vm_compute. }
  assert (∀ marker : string,
            py "android.permission." ++ py marker `prefix_of` p →
            py_any (contains (py marker)) (dangerous_of perms) = true) as Hany.
  { intros marker [k Hk]. apply py_any_spec. exists p. split; [done|].
    apply contains_spec. exists (py "android.permission."), k.
    by rewrite Hk, <- app_assoc. }
  pose proof (score_rules_reasons (debuggable_of a) (dangerous_of perms)
                (urls_of uni_alnum a)) as (_ & Hm & Hs & _ & Ho & Hi).
  pose proof (score_rules_bounds (debuggable_of a) (dangerous_of perms)
                (urls_of uni_alnum a)) as Hb.
  pose proof (score_rules_risk_length (debuggable_of a) (dangerous_of perms)
                (urls_of uni_alnum a)) as Hrisk.
  run_inv H. injection Hperms as ->.
  destruct (permissions_of_spec _ _ Eget3) as (Hsorted & _ & _).
  rewrite Escore in *. simpl in *. destruct Hb as (Hlen & _ & _).
  exists (dangerous_of perms), reasons, risk.
  rewrite (py_sorted_id (dangerous_of perms)) by (by apply filter_Sorted).
  rewrite (cap_small risk) by lia.
  split; [done|]. split; [done|]. split; [done|].
  split; [intros Hpre; apply Ho, (Hany "SYSTEM_ALERT_WINDOW"%string Hpre)|].
  split; [intros Hpre; apply Hi, (Hany "REQUEST_INSTALL_PACKAGES"%string Hpre)|].
  split; [done|].
  assert (length (dangerous_of perms) ≠ 0)%nat as Hnz.
  { intros Hz. apply length_zero_iff_nil in Hz. rewrite Hz in Hdang.
    by apply elem_of_nil in Hdang. }
  assert (reason_multiple ∈ reasons ∨ reason_some ∈ reasons) as Hcount.
  { destruct (decide (3 ≤ length (dangerous_of perms))%nat).
    - left. by apply Hm.
    - right. apply Hs. lia. }
  assert (reason_overlay ∈ reasons ∨ reason_install ∈ reasons) as Hmark.
  { destruct Hprefix as [Hpre|Hpre].
    - left. apply Ho, (Hany "SYSTEM_ALERT_WINDOW"%string Hpre).
    - right. apply Hi, (Hany "REQUEST_INSTALL_PACKAGES"%string Hpre). }
  assert (2 ≤ length reasons)%nat; [|case_bool_decide; lia].
  destruct Hcount as [Hc|Hc], Hmark as [Hk|Hk];
    apply list_elem_of_split in Hc as (l1 & l2 & ->);
    rewrite elem_of_app, elem_of_cons in Hk;
    destruct Hk as [Hk|[Hk|Hk]]; try (by vm_compute in Hk);
    apply list_elem_of_split in Hk as (l3 & l4 & ->);
    rewrite ?length_app; simpl; rewrite ?length_app; simpl; lia.
Qed.

(** X8. Every result is a dict with one of two key lists: [ok] and
    [error] when the parser is missing or fails, the eighteen keys of a
    report, in this order, otherwise; [error] never accompanies
    [ok] true. *)
Theorem result_key_lists ok parsed r :
  analyze_apk uni_alnum ok parsed = Ret r →
  (dict_keys r = KStr <$> (py <$> ["ok"; "error"]%string)
   ∧ dict_get r "ok" = Some (PBool false)
   ∧ (ok = false ∨ ∃ e, parsed = Raise e))
  ∨ (dict_keys r
     = KStr <$> (py <$> [ "ok"; "package_name"; "app_name"; "version_name";
                          "version_code"; "debuggable"; "permissions";
                          "dangerous_permissions"; "receivers"; "services";
                          "activities"; "urls"; "certificates"; "risk_score";
                          "risk_label"; "risk_reasons"; "recommendation";
                          "recommendation_reason" ]%string)
     ∧ dict_get r "ok" = Some (PBool true)
     ∧ dict_get r "error" = None
     ∧ ok = true ∧ ∃ a, parsed = Ret a).
Proof.
  intros H. destruct ok; [destruct parsed as [a|e]|].
  - right. run_inv H. repeat split; eauto.
  - left. injection H as <-. repeat split; eauto.
  - left. injection H as <-. repeat split; eauto.
Qed.

End Reported.

(** ** Certificates *)

Lemma mapM_Ret {A B} (f : A → result B) l l' :
  mapM f l = Ret l' ↔ Forall2 (λ x y, f x = Ret y) l l'.
Proof.
  revert l'. induction l as [|x l IH]; intros l'; simpl.
  - split; [intros [= <-]; constructor|by inversion 1].
  - destruct (f x) as [y|e] eqn:Hx; simpl.
    + destruct (mapM f l) as [k|e] eqn:Hl; simpl.
      * split.
        -- intros [= <-]. constructor; [done|]. by apply IH.
        -- inversion 1 as [|? y' ? k' Hy Hk]; subst.
           apply IH in Hk. change (Ret (y :: k) = Ret (y' :: k')). congruence.
      * split; [done|]. inversion 1 as [|? y' ? k' Hy Hk]; subst.
        apply IH in Hk. done.
    + split; [done|]. inversion 1; congruence.
Qed.

Lemma mapM_Raise {A B} (f : A → result B) l e :
  mapM f l = Raise e → Exists (λ x, f x = Raise e) l.
Proof.
  induction l as [|x l IH]; simpl; [done|].
  destruct (f x) as [y|e'] eqn:Hx; simpl.
  - destruct (mapM f l) as [k|e'']; simpl; [done|].
    intros [= ->]. right. by apply IH.
  - intros [= ->]. by left.
Qed.

Lemma str_or_none_shape x v : str_or_none x = Ret v → str_or_null v.
Proof.
  destruct x as [[s|e]|]; simpl; intros [= <-]; [right|left]; eauto.
Qed.

Lemma cert_entry_shape c entry : cert_entry c = Ret entry → cert_shaped entry.
Proof.
  unfold cert_entry. destruct (cert_fields c) as [d|e] eqn:Hf.
  - intros [= <-]. right. unfold cert_fields in Hf.
    destruct (getattr_none (issuer c)) as [i|]; simpl in Hf; [|done].
    destruct (getattr_none (subject c)) as [s|]; simpl in Hf; [|done].
    destruct (getattr_none (serial_number c)) as [n|]; simpl in Hf; [|done].
    destruct (str_or_none i) as [i'|] eqn:Hi; simpl in Hf; [|done].
    destruct (str_or_none s) as [s'|] eqn:Hs; simpl in Hf; [|done].
    destruct (str_or_none n) as [n'|] eqn:Hn; simpl in Hf; [|done].
    injection Hf as <-. exists i', s', n'.
    split; [done|]. split; [|split]; eapply str_or_none_shape; eassumption.
  - destruct (cert_str c) as [s|]; simpl; [|done].
    intros [= <-]. left. eauto.
Qed.

(** X9. The [certificates] of a result hold either one entry per
    certificate of the chain, in order, each the three-key dict or the
    text of the certificate, or nothing at all: a single certificate
    whose attributes and text both fail empties the whole list. *)
Theorem certificates_whole_chain_or_empty a certs :
  get_certificates a = Ret (Some certs) →
  (∃ entries,
     certificates_of a = PList entries
     ∧ Forall2 (λ c entry, cert_entry c = Ret entry) certs entries
     ∧ Forall cert_shaped entries)
  ∨ (certificates_of a = PList []
     ∧ Exists (λ c, ∃ e, cert_fields c = Raise e ∧ ∃ e', cert_str c = Raise e')
         certs).
Proof.
  intros Hc. unfold certificates_of. rewrite Hc. simpl.
  destruct (mapM cert_entry certs) as [entries|e] eqn:Hm; simpl.
  - left. exists entries. apply mapM_Ret in Hm. split; [done|]. split; [done|].
    clear Hc. induction Hm as [|c entry certs' entries' Hce _ IH];
      constructor; eauto using cert_entry_shape.
  - right. split; [done|]. apply mapM_Raise in Hm.
    eapply Exists_impl; [exact Hm|]. intros c Hraise. simpl in Hraise.
    unfold cert_entry in Hraise.
    destruct (cert_fields c) as [d|e1]; [done|]. exists e1. split; [done|].
    destruct (cert_str c) as [s|e2]; [done|]. eauto.
Qed.

(** ** More on [to_jsonable] *)

Lemma mapM_total {A B} (f : A → result B) l :
  Forall (λ x, ∃ y, f x = Ret y) l → ∃ l', mapM f l = Ret l'.
Proof.
  induction 1 as [|x l [y Hy] _ [l' Hl]]; simpl; [by eexists|].
  rewrite Hy. simpl. rewrite Hl. simpl. by eexists.
Qed.

Lemma items_get_dict_set d k v k' :
  items_get (str_items (dict_set d k v)) k'
  = if bool_decide (k = k') then Some v else items_get (str_items d) k'.
Proof.
  induction d as [|[k0 v0] d IH]; simpl.
  - by repeat case_bool_decide.
  - repeat (case_bool_decide; simpl; subst); try done;
      rewrite IH; by rewrite ?bool_decide_eq_true_2, ?bool_decide_eq_false_2.
Qed.

Section ToJsonableMore.

Variable decode : list N → pystr.

Lemma dict_comprehension_total d acc :
  Forall (λ kv, ∃ j, to_jsonable decode kv.2 = Ret j) d →
  ∃ j, dict_comprehension (to_jsonable decode) (str_items d) acc = Ret j.
Proof.
  intros Hd. revert acc.
  induction Hd as [|[k v] d [j Hj] _ IH]; intros acc; simpl; [by eexists|].
  simpl in Hj. rewrite Hj. simpl. apply IH.
Qed.

(** X10. [to_jsonable] returns on every value built from [None],
    booleans, numbers, strings, paths, bytes, and lists, tuples, sets
    and string-keyed dicts of such values, and what it returns is
    serialisable: only [str] or [repr] of an object can make it raise. *)
Theorem to_jsonable_returns_on_plain v :
  plain v → ∃ j, to_jsonable decode v = Ret j ∧ jsonable j.
Proof.
  intros Hp.
  assert (∃ j, to_jsonable decode v = Ret j) as [j Hj];
    [|exists j; split; [done|by eapply to_jsonable_shape]].
  induction v as [| | | | | | |items IH|l IH|l IH|l IH|o]
    using pyval_nested_ind;
    inversion Hp as [| | | | | | |d Hd|l' Hl|l' Hl|l' Hl]; subst;
    simpl; try (by eexists).
  - apply dict_comprehension_total.
    unfold str_items in IH. rewrite Forall_fmap in IH.
    eapply Forall_impl; [apply Forall_and; split; [exact IH|exact Hd]|].
    intros [k x] [Hi Hx]. by apply Hi.
  - destruct (mapM_total (to_jsonable decode) l) as [l' ->]; [|by eexists].
    eapply Forall_impl; [apply Forall_and; split; [exact IH|exact Hl]|].
    intros x [Hi Hx]. by apply Hi.
  - destruct (mapM_total (to_jsonable decode) l) as [l' ->]; [|by eexists].
    eapply Forall_impl; [apply Forall_and; split; [exact IH|exact Hl]|].
    intros x [Hi Hx]. by apply Hi.
  - destruct (mapM_total (to_jsonable decode) l) as [l' ->]; [|by eexists].
    eapply Forall_impl; [apply Forall_and; split; [exact IH|exact Hl]|].
    intros x [Hi Hx]. by apply Hi.
Qed.

Lemma dict_comprehension_entrywise d acc j :
  NoDup (acc ++ d).*1 →
  dict_comprehension (to_jsonable decode) (str_items d) acc = Ret j ↔
  ∃ d', j = PDict (str_items (acc ++ d'))
        ∧ Forall2 (λ kv kv', kv.1 = kv'.1 ∧ to_jsonable decode kv.2 = Ret kv'.2)
            d d'.
Proof.
  revert acc. induction d as [|[k v] d IH]; intros acc Hnd; simpl.
  - split.
    + intros [= <-]. exists []. by rewrite app_nil_r.
    + intros (d' & -> & Hf). inversion Hf. by rewrite app_nil_r.
  - assert (k ∉ acc.*1) as Hfresh.
    { rewrite fmap_app, NoDup_app in Hnd. destruct Hnd as (_ & Hdis & _).
      intros Hin. apply (Hdis k Hin). simpl. left. }
    assert (NoDup ((acc ++ [(k, v)]) ++ d).*1) as Hnd'
      by (by rewrite <- app_assoc).
    destruct (to_jsonable decode v) as [v'|e] eqn:Hv; simpl.
    + rewrite dict_set_fresh by done.
      rewrite IH.
      2:{ rewrite !fmap_app in *. simpl in *. done. }
      split.
      * intros (d' & -> & Hf). exists ((k, v') :: d').
        split; [by rewrite <- app_assoc|]. by constructor.
      * intros (d' & -> & Hf).
        inversion Hf as [|[k1 v1] [k2 v2] ? d'' [Hk Hv'] Hd]; subst.
        simpl in *. subst. rewrite Hv in Hv'. injection Hv' as <-.
        exists d''. split; [by rewrite <- app_assoc|done].
    + split; [done|]. intros (d' & -> & Hf).
      inversion Hf as [|[k1 v1] [k2 v2] ? d'' [Hk Hv'] Hd]; subst.
      simpl in *. congruence.
Qed.

(** X11. On a dict whose keys are distinct strings the conversion goes
    entry by entry: it returns exactly when every value converts, and
    then the result has the same keys in the same order, each with its
    converted value. *)
Theorem to_jsonable_dict_entrywise d j :
  NoDup d.*1 →
  to_jsonable decode (PDict (str_items d)) = Ret j ↔
  ∃ d', j = PDict (str_items d')
        ∧ Forall2 (λ kv kv', kv.1 = kv'.1 ∧ to_jsonable decode kv.2 = Ret kv'.2)
            d d'.
Proof. intros Hnd. by apply (dict_comprehension_entrywise d []). Qed.

Lemma dict_comprehension_lookup items acc j k :
  dict_comprehension (to_jsonable decode) items acc = Ret j →
  Forall (λ kv, key_str kv.1 ≠ Ret k) items →
  ∃ out, j = PDict out ∧ items_get out k = items_get (str_items acc) k.
Proof.
  revert acc. induction items as [|[key v] items IH]; intros acc; simpl.
  - intros [= <-] _. by eexists.
  - destruct (key_str key) as [k'|] eqn:Hk; simpl; [|done].
    destruct (to_jsonable decode v) as [v'|]; simpl; [|done].
    intros Hj Hall. apply Forall_cons in Hall as [Hne Hall].
    destruct (IH _ Hj Hall) as (out & -> & Hout). exists out.
    split; [done|]. rewrite Hout, items_get_dict_set.
    rewrite bool_decide_eq_false_2; [done|]. simpl in Hne. congruence.
Qed.

(** X12. When several keys of a dict have the same text, the converted
    dict holds under that text the conversion of the value stored last. *)
Theorem to_jsonable_last_key_wins items1 key v items2 k j :
  to_jsonable decode (PDict (items1 ++ (key, v) :: items2)) = Ret j →
  key_str key = Ret k →
  Forall (λ kv, key_str kv.1 ≠ Ret k) items2 →
  ∃ out v', j = PDict out ∧ to_jsonable decode v = Ret v'
            ∧ items_get out k = Some v'.
Proof.
  simpl. generalize (@nil (pystr * pyval)) as acc.
  induction items1 as [|[key1 v1] items1 IH]; intros acc; simpl.
  - intros Hj Hk Hall. rewrite Hk in Hj. simpl in Hj.
    destruct (to_jsonable decode v) as [v'|]; simpl in Hj; [|done].
    destruct (dict_comprehension_lookup _ _ _ k Hj Hall) as (out & -> & Hout).
    exists out, v'. split; [done|]. split; [done|].
    rewrite Hout, items_get_dict_set. by rewrite bool_decide_eq_true_2.
  - destruct (key_str key1) as [k1|]; simpl; [|done].
    destruct (to_jsonable decode v1) as [v1'|]; simpl; [|done].
    apply IH.
Qed.

End ToJsonableMore.

(** ** The helpers of the upload endpoint *)

Lemma rsplit_last_None sep s : rsplit_last sep s = None ↔ sep ∉ s.
Proof.
  induction s as [|c s IH]; simpl.
  - split; [intros _; apply not_elem_of_nil|done].
  - rewrite not_elem_of_cons.
    destruct (rsplit_last sep s) as [[b a]|].
    + split; [done|]. intros [_ Hs]. by apply IH in Hs.
    + destruct (N.eqb_spec c sep) as [->|Hne].
      * split; [done|]. by intros [? _].
      * split; [|done]. intros _. split; [done|]. by apply IH.
Qed.

Lemma rsplit_last_sound sep s before after :
  rsplit_last sep s = Some (before, after) →
  s = before ++ sep :: after ∧ sep ∉ after.
Proof.
  revert before after. induction s as [|c s IH]; intros before after; simpl.
  { done. }
  destruct (rsplit_last sep s) as [[b a]|] eqn:Hr.
  - intros [= <- <-]. destruct (IH b a eq_refl) as [-> Ha]. done.
  - destruct (N.eqb_spec c sep) as [->|Hne]; [|done].
    intros [= <- <-]. split; [done|]. by apply rsplit_last_None.
Qed.

Lemma rsplit_last_complete sep before after :
  sep ∉ after → rsplit_last sep (before ++ sep :: after) = Some (before, after).
Proof.
  intros Hafter. induction before as [|x before IH]; simpl.
  - apply rsplit_last_None in Hafter. rewrite Hafter. by rewrite N.eqb_refl.
  - by rewrite IH.
Qed.

Lemma contains_char c s : contains [c] s = true ↔ c ∈ s.
Proof.
  rewrite contains_spec. split.
  - intros (pre & post & ->). apply elem_of_app. right. left.
  - intros (pre & post & ->)%list_elem_of_split. by exists pre, post.
Qed.

Section UploadHelpers.

Variable py_lower : pystr → pystr.
Variable sha256_state : Type.
Variable sha256_new : sha256_state.
Variable sha256_update : sha256_state → list N → sha256_state.
Variable sha256_hexdigest : sha256_state → pystr.
Variable open_rb : pystr → result (list N).

(** X13. [allowed_file] never raises, and accepts a name exactly when
    the name has a dot and the text after its last dot is [apk] once
    lowered. *)
Theorem allowed_file_last_extension name :
  ∃ allowed,
    allowed_file py_lower name = Ret allowed
    ∧ (allowed = true ↔
       ∃ stem ext, name = stem ++ py "." ++ ext ∧ (46%N ∉ ext)
                   ∧ py_lower ext = py "apk").
Proof.
  unfold allowed_file, rsplit1. change (py ".") with [46%N].
  destruct (contains [46%N] name) eqn:Hdot.
  - apply contains_char in Hdot.
    destruct (rsplit_last 46 name) as [[stem ext]|] eqn:Hr.
    + simpl. eexists. split; [done|].
      destruct (rsplit_last_sound _ _ _ _ Hr) as [-> Hext].
      rewrite bool_decide_eq_true. unfold ALLOWED_EXTENSIONS.
      rewrite list_elem_of_singleton. split.
      * intros Hl. by exists stem, ext.
      * intros (stem' & ext' & Hname & Hext' & Hl).
        simpl in Hname. rewrite Hname in Hr.
        rewrite rsplit_last_complete in Hr by done. by injection Hr as -> ->.
    + apply rsplit_last_None in Hr. done.
  - exists false. split; [done|]. split; [done|].
    intros (stem & ext & -> & _). exfalso.
    assert (contains [46%N] (stem ++ [46%N] ++ ext) = true) as Hc.
    { apply contains_char. apply elem_of_app. right. left. }
    change (py ".") with [46%N] in Hdot. congruence.
Qed.



End UploadHelpers.

(** ** The upload endpoint *)

Lemma items_set_str_items d k v :
  items_set (str_items d) k v = str_items (dict_set d k v).
Proof.
  induction d as [|[k0 v0] d IH]; simpl; [done|].
  case_bool_decide; simpl; [by subst|]. by rewrite IH.
Qed.

Section UploadEndpoint.

Variable uni_alnum : N → bool.
Variable decode : list N → pystr.
Variable py_lower : pystr → pystr.
Variable sha256_state : Type.
Variable sha256_new : sha256_state.
Variable sha256_update : sha256_state → list N → sha256_state.
Variable sha256_hexdigest : sha256_state → pystr.
Variable open_rb : pystr → result (list N).
Variable secure_filename : pystr → pystr.
Variable utcnow_text : pystr.
Variable UPLOAD_DIR : pystr.
Variable ANDRO_OK : bool.
Variable APK_new : pystr → result APK.

Lemma entries_lookup d d' k v :
  Forall2 (λ kv kv', kv.1 = kv'.1 ∧ to_jsonable decode kv.2 = Ret kv'.2) d d' →
  items_get (str_items d) k = Some v →
  ∃ v', items_get (str_items d') k = Some v' ∧ to_jsonable decode v = Ret v'.
Proof.
  induction 1 as [|[k1 v1] [k2 v2] d d' [Hk Hv] _ IH]; simpl; [done|].
  simpl in Hk, Hv. subst k2. case_bool_decide; [|done].
  intros [= <-]. eauto.
Qed.

(** Every result of [analyze_apk] is a dict with distinct string keys,
    [ok] among them and neither [filename] nor [sha256]. *)
Lemma analyze_result_keyed ok parsed r :
  analyze_apk uni_alnum ok parsed = Ret r →
  ∃ d, r = PDict (str_items d) ∧ NoDup d.*1
       ∧ items_get (str_items d) (py "filename") = None
       ∧ items_get (str_items d) (py "sha256") = None
       ∧ ∃ b, items_get (str_items d) (py "ok") = Some (PBool b).
Proof.
  intros H. destruct ok; [destruct parsed as [a|e]|].
  - run_inv H.
    match goal with
    | |- ∃ d, PDict ?items = _ ∧ _ => exists (str_entries items)
    end.
    split; [reflexivity|].
    split; [refine (bool_decide_unpack _ _); by vm_compute|].
    split; [reflexivity|]. split; [reflexivity|]. by exists true.
  - injection H as <-.
    match goal with
    | |- ∃ d, PDict ?items = _ ∧ _ => exists (str_entries items)
    end.
    split; [reflexivity|].
    split; [refine (bool_decide_unpack _ _); by vm_compute|].
    split; [reflexivity|]. split; [reflexivity|]. by exists false.
  - injection H as <-.
    match goal with
    | |- ∃ d, PDict ?items = _ ∧ _ => exists (str_entries items)
    end.
    split; [reflexivity|].
    split; [refine (bool_decide_unpack _ _); by vm_compute|].
    split; [reflexivity|]. split; [reflexivity|]. by exists false.
Qed.


Lemma entries_lookup_None d d' k :
  Forall2 (λ kv kv', kv.1 = kv'.1 ∧ to_jsonable decode kv.2 = Ret kv'.2) d d' →
  items_get (str_items d) k = None →
  items_get (str_items d') k = None.
Proof.
  induction 1 as [|[k1 v1] [k2 v2] d d' [Hk Hv] _ IH]; simpl; [done|].
  simpl in Hk. subst k2. by case_bool_decide.
Qed.

Lemma with_upload_fields_NoDup name d :
  NoDup d.*1 →
  NoDup (with_upload_fields sha256_state sha256_new sha256_update
           sha256_hexdigest open_rb secure_filename utcnow_text UPLOAD_DIR
           name d).*1.
Proof.
  intros. unfold with_upload_fields.
  destruct (sha256_file _ _ _ _ _ _); by repeat apply dict_set_NoDup.
Qed.

Lemma upload_accepted_inv f name body status :
  filename f = Some name → name ≠ [] →
  allowed_file py_lower name = Ret true →
  (upload uni_alnum decode py_lower sha256_state sha256_new sha256_update
     sha256_hexdigest open_rb secure_filename utcnow_text UPLOAD_DIR ANDRO_OK
     APK_new (Some f)) = Ret (body, status) →
  ∃ d d',
    status = 200
    ∧ save f (save_path_of secure_filename utcnow_text UPLOAD_DIR name) = Ret tt
    ∧ analyze_apk uni_alnum ANDRO_OK
        (APK_new (save_path_of secure_filename utcnow_text UPLOAD_DIR name))
      = Ret (PDict (str_items d))
    ∧ NoDup d.*1
    ∧ items_get (str_items d) (py "filename") = None
    ∧ items_get (str_items d) (py "sha256") = None
    ∧ (∃ b, items_get (str_items d) (py "ok") = Some (PBool b))
    ∧ body = PDict (str_items d')
    ∧ Forall2 (λ kv kv', kv.1 = kv'.1 ∧ to_jsonable decode kv.2 = Ret kv'.2)
        (with_upload_fields sha256_state sha256_new sha256_update
           sha256_hexdigest open_rb secure_filename utcnow_text UPLOAD_DIR
           name d)
        d'.
Proof.
  intros Hname Hne Hallowed. unfold upload, with_upload_fields, save_path_of.
  rewrite Hname.
  destruct name as [|c name]; [done|]. rewrite Hallowed.
  cbn [mbind result_bind negb].
  destruct (save f _) as [[]|]; [|done].
  destruct (analyze_apk uni_alnum ANDRO_OK _) as [r|] eqn:Hr; [|done].
  destruct (analyze_result_keyed _ _ _ Hr) as (d & -> & Hnd & Hfn & Hsha & Hok).
  cbn [setitem mbind result_bind]. rewrite items_set_str_items.
  destruct (sha256_file _ _ _ _ _ _) as [digest|];
    cbn [try_default setitem mbind result_bind];
    rewrite ?items_set_str_items;
    match goal with
    | |- context [to_jsonable decode (PDict (str_items ?d2))] =>
        destruct (to_jsonable decode (PDict (str_items d2))) as [j|] eqn:Hj;
        [|done];
        apply (dict_comprehension_entrywise decode d2 []) in Hj;
        [|by repeat apply dict_set_NoDup];
        destruct Hj as (d' & -> & Hf); intros [= <- <-];
        exists d, d'
    end; repeat split; eauto.
Qed.

(** X15. What the endpoint answers: 400 with "No file part" when the
    request has no [file]; 400 with "No selected file" when its name is
    empty; 400 with "Only .apk files are allowed" when [allowed_file]
    rejects the name; and otherwise 200, also when the analysis itself
    reports a failure, with a serialisable body that holds [ok] and,
    under [filename], the name [secure_filename] gave. *)
Theorem upload_outcomes request_file body status :
  (upload uni_alnum decode py_lower sha256_state sha256_new sha256_update
     sha256_hexdigest open_rb secure_filename utcnow_text UPLOAD_DIR ANDRO_OK
     APK_new request_file) = Ret (body, status) →
  (status = 400 ∧ body = error_body "No file part" ∧ request_file = None)
  ∨ (status = 400 ∧ body = error_body "No selected file"
     ∧ ∃ f, request_file = Some f ∧ filename f = Some [])
  ∨ (status = 400 ∧ body = error_body "Only .apk files are allowed"
     ∧ ∃ f name, request_file = Some f ∧ filename f = Some name
                 ∧ allowed_file py_lower name = Ret false)
  ∨ (status = 200
     ∧ (∃ f name, request_file = Some f ∧ filename f = Some name
                  ∧ name ≠ [] ∧ allowed_file py_lower name = Ret true
                  ∧ dict_get body "filename"
                    = Some (PStr (secure_filename name)))
     ∧ jsonable body
     ∧ ∃ b, dict_get body "ok" = Some (PBool b)).
Proof.
  intros H. destruct request_file as [f|]; [|left; by injection H as <- <-].
  right. destruct (filename f) as [[|c name]|] eqn:Hname.
  - left. unfold upload in H. rewrite Hname in H. injection H as <- <-. eauto.
  - right. destruct (allowed_file py_lower (c :: name)) as [[]|] eqn:Ha.
    + right.
      destruct (upload_accepted_inv f (c :: name) body status Hname
                  ltac:(done) Ha H)
        as (d & d' & -> & _ & Hr & Hnd & _ & _ & [b Hb] & -> & Hf).
      set (d2 := with_upload_fields sha256_state sha256_new sha256_update
                   sha256_hexdigest open_rb secure_filename utcnow_text
                   UPLOAD_DIR (c :: name) d) in *.
      assert (items_get (str_items d2) (py "filename")
              = Some (PStr (secure_filename (c :: name)))
              ∧ items_get (str_items d2) (py "ok") = Some (PBool b))
        as [Hfn Hok].
      { unfold d2, with_upload_fields.
        destruct (sha256_file _ _ _ _ _ _); rewrite ?items_get_dict_set;
          by repeat (rewrite ?bool_decide_eq_true_2, ?bool_decide_eq_false_2
                       by (by vm_compute)). }
      destruct (entries_lookup _ _ _ _ Hf Hfn) as (v1 & Hv1 & [= <-]).
      destruct (entries_lookup _ _ _ _ Hf Hok) as (v2 & Hv2 & [= <-]).
      split; [done|]. split; [by exists f, (c :: name)|]. split; [|by exists b].
      apply (to_jsonable_shape decode (PDict (str_items d2))).
      apply (dict_comprehension_entrywise decode _ []); [|by exists d'].
      by apply with_upload_fields_NoDup.
    + left. unfold upload in H. rewrite Hname, Ha in H.
      injection H as <- <-. split; [done|]. split; [done|]. eauto.
    + unfold upload in H. by rewrite Hname, Ha in H.
  - unfold upload in H. by rewrite Hname in H.
Qed.

(** X16. An accepted upload answers with every field of the analysis:
    each key of the dict [analyze_apk] returned for the saved file is a
    key of the body, and its value there is what [to_jsonable] makes of
    the analysis value.  Setting [filename] and [sha256] overwrites
    nothing, since the analysis never uses these keys. *)
Theorem upload_keeps_analysis f name body status r k v :
  filename f = Some name → name ≠ [] →
  allowed_file py_lower name = Ret true →
  (upload uni_alnum decode py_lower sha256_state sha256_new sha256_update
     sha256_hexdigest open_rb secure_filename utcnow_text UPLOAD_DIR ANDRO_OK
     APK_new (Some f)) = Ret (body, status) →
  analyze_apk uni_alnum ANDRO_OK
    (APK_new (save_path_of secure_filename utcnow_text UPLOAD_DIR name))
  = Ret r →
  dict_get r k = Some v →
  ∃ v', dict_get body k = Some v' ∧ to_jsonable decode v = Ret v'.
Proof.
  intros Hname Hne Ha H Hr Hk.
  destruct (upload_accepted_inv f name body status Hname Hne Ha H)
    as (d & d' & -> & _ & Hr' & Hnd & Hfn & Hsha & _ & -> & Hf).
  rewrite Hr' in Hr. injection Hr as <-. simpl in Hk |- *.
  apply (entries_lookup _ _ _ _ Hf). unfold with_upload_fields.
  destruct (sha256_file _ _ _ _ _ _); rewrite ?items_get_dict_set;
    repeat case_bool_decide; subst; congruence.
Qed.

(** X17. The digest is best effort: the body of an accepted upload has
    [sha256], the hex digest of the saved file, exactly when
    [sha256_file] returned; when it raised (the file could not be read)
    the exception is swallowed and the body has no such key. *)
Theorem upload_sha256_best_effort f name body status :
  filename f = Some name → name ≠ [] →
  allowed_file py_lower name = Ret true →
  (upload uni_alnum decode py_lower sha256_state sha256_new sha256_update
     sha256_hexdigest open_rb secure_filename utcnow_text UPLOAD_DIR ANDRO_OK
     APK_new (Some f)) = Ret (body, status) →
  dict_get body "sha256"
  = match
      (sha256_file sha256_state sha256_new sha256_update
         sha256_hexdigest open_rb
         (save_path_of secure_filename utcnow_text UPLOAD_DIR name)) with
    | Ret digest => Some (PStr digest)
    | Raise _ => None
    end.
Proof.
  intros Hname Hne Ha H.
  destruct (upload_accepted_inv f name body status Hname Hne Ha H)
    as (d & d' & -> & _ & _ & _ & Hfn & Hsha & _ & -> & Hf).
  simpl. unfold with_upload_fields in Hf.
  destruct (sha256_file _ _ _ _ _ _) as [digest|].
  - destruct (entries_lookup _ _ (py "sha256") (PStr digest) Hf)
      as (v' & -> & [= <-]); [|done].
    rewrite items_get_dict_set. by rewrite bool_decide_eq_true_2.
  - apply (entries_lookup_None _ _ _ Hf). rewrite items_get_dict_set.
    by rewrite bool_decide_eq_false_2 by (by vm_compute).
Qed.

(** X18. A file the parser rejects is still answered with status 200:
    the body is the failure dict of [analyze_apk] ([ok] false and the
    parser's message after "Failed to parse APK: "), followed by
    [filename] and, if the saved file can be read, [sha256]. *)
Theorem upload_parse_failure_is_200 f name e :
  filename f = Some name → name ≠ [] →
  allowed_file py_lower name = Ret true →
  save f (save_path_of secure_filename utcnow_text UPLOAD_DIR name) = Ret tt →
  ANDRO_OK = true →
  APK_new (save_path_of secure_filename utcnow_text UPLOAD_DIR name) = Raise e →
  (upload uni_alnum decode py_lower sha256_state sha256_new sha256_update
     sha256_hexdigest open_rb secure_filename utcnow_text UPLOAD_DIR ANDRO_OK
     APK_new (Some f))
  = Ret (PDict (str_items
                  ([(py "ok", PBool false);
                    (py "error", PStr (py "Failed to parse APK: " ++ e));
                    (py "filename", PStr (secure_filename name))]
                   ++ match
                       (sha256_file sha256_state sha256_new sha256_update
                          sha256_hexdigest open_rb
                          (save_path_of secure_filename utcnow_text UPLOAD_DIR
                             name)) with
                      | Ret digest => [(py "sha256", PStr digest)]
                      | Raise _ => []
                      end)),
         200).
Proof.
  intros Hname Hne Ha Hsave Hok Hparse. unfold upload, save_path_of in *.
  rewrite Hname. destruct name as [|c name]; [done|].
  rewrite Ha. cbn [mbind result_bind negb]. rewrite Hsave, Hok, Hparse.
  cbn [mbind result_bind analyze_apk].
  destruct (sha256_file _ _ _ _ _ _) as [digest|]; reflexivity.
Qed.

(** X19. What the endpoint does not catch.  A failing [file.save], and a
    failing unguarded getter of the parser ([get_package],
    [get_app_name], [get_androidversion_name], [get_androidversion_code],
    [get_permissions]), leave [upload] as an exception: no JSON body is
    produced, neither with status 200 nor 400. *)
Theorem upload_unhandled_failures f name e :
  filename f = Some name → name ≠ [] →
  allowed_file py_lower name = Ret true →
  save f (save_path_of secure_filename utcnow_text UPLOAD_DIR name) = Raise e
  ∨ (save f (save_path_of secure_filename utcnow_text UPLOAD_DIR name) = Ret tt
     ∧ ANDRO_OK = true
     ∧ ∃ a, APK_new (save_path_of secure_filename utcnow_text UPLOAD_DIR name)
            = Ret a
            ∧ (get_package a = Raise e
               ∨ (∃ pn, get_package a = Ret pn ∧ get_app_name a = Raise e)
               ∨ (∃ pn an, get_package a = Ret pn ∧ get_app_name a = Ret an
                           ∧ get_androidversion_name a = Raise e)
               ∨ (∃ pn an vn, get_package a = Ret pn
                              ∧ get_app_name a = Ret an
                              ∧ get_androidversion_name a = Ret vn
                              ∧ get_androidversion_code a = Raise e)
               ∨ (∃ pn an vn vc, get_package a = Ret pn
                                 ∧ get_app_name a = Ret an
                                 ∧ get_androidversion_name a = Ret vn
                                 ∧ get_androidversion_code a = Ret vc
                                 ∧ get_permissions a = Raise e))) →
  (upload uni_alnum decode py_lower sha256_state sha256_new sha256_update
     sha256_hexdigest open_rb secure_filename utcnow_text UPLOAD_DIR ANDRO_OK
     APK_new (Some f)) = Raise e.
Proof.
  intros Hname Hne Ha H. unfold upload, save_path_of in *.
  rewrite Hname. destruct name as [|c name]; [done|].
  rewrite Ha. cbn [mbind result_bind negb].
  destruct H as [->|(-> & -> & a & -> & H)]; [done|].
  by rewrite (unguarded_getters_abort uni_alnum a e H).
Qed.

End UploadEndpoint.

(** ** Instances of the further properties *)

Lemma findall_matches_shape_witness :
  ∃ pre scheme run post,
    py "see HTTP://a.b/c now" = pre ++ py "HTTP://a.b/c" ++ post
    ∧ py "HTTP://a.b/c" = scheme ++ py "://" ++ run
    ∧ is_http scheme = true
    ∧ run ≠ []
    ∧ Forall (λ c, url_char ascii_alnum c = true) run
    ∧ stops_match ascii_alnum post.
Proof.
  apply (findall_matches_shape ascii_alnum (py "see HTTP://a.b/c now")
           (py "HTTP://a.b/c")).
  refine (bool_decide_unpack _ _). vm_compute. exact I.
Defined.

Lemma findall_whole_url_witness :
  findall ascii_alnum (py "HTTPS" ++ py "://" ++ py "example.com/x?y=1")
  = [py "HTTPS" ++ py "://" ++ py "example.com/x?y=1"].
Proof.
  apply (findall_whole_url ascii_alnum (py "HTTPS") (py "example.com/x?y=1")).
  - reflexivity.
  - discriminate.
  - refine (bool_decide_unpack _ _). vm_compute. exact I.
Defined.

Lemma scenario_run_returns :
  analyze_apk ascii_alnum true (Ret scenario_apk) = Ret (run scenario_apk)
  ∧ dict_get (run scenario_apk) "debuggable" = Some (flag_val (Some true))
  ∧ dict_get (run scenario_apk) "dangerous_permissions"
    = Some (str_list scenario_perms)
  ∧ dict_get (run scenario_apk) "urls" = Some (str_list scenario_urls).
Proof. repeat split; vm_compute; reflexivity. Defined.

Lemma reasons_match_reported_facts_witness :
  reason_multiple
    ∈ [reason_debuggable; reason_multiple; reason_urls; reason_overlay;
       reason_install]
  ↔ (3 ≤ length scenario_perms)%nat.
Proof.
  destruct scenario_run_returns as (Hrun & Hd & Hdang & Hurls).
  destruct (reasons_match_reported_facts ascii_alnum scenario_apk
              (run scenario_apk) (Some true) scenario_perms scenario_urls
              [reason_debuggable; reason_multiple; reason_urls;
               reason_overlay; reason_install]
              Hrun Hd Hdang Hurls) as (_ & Hm & _).
  - vm_compute. reflexivity.
  - exact Hm.
Defined.

Lemma label_high_iff_all_rules_witness :
  dict_get (run scenario_apk) "risk_label" = Some (PStr (py "High")) ↔
  Some true = Some true
  ∧ (3 ≤ length scenario_perms)%nat
  ∧ (10 < length scenario_urls)%nat
  ∧ (∃ p, p ∈ scenario_perms ∧ contains (py "SYSTEM_ALERT_WINDOW") p = true)
  ∧ (∃ p, p ∈ scenario_perms
          ∧ contains (py "REQUEST_INSTALL_PACKAGES") p = true).
Proof.
  destruct scenario_run_returns as (Hrun & Hd & Hdang & Hurls).
  exact (label_high_iff_all_rules ascii_alnum scenario_apk (run scenario_apk)
           (Some true) scenario_perms scenario_urls Hrun Hd Hdang Hurls).
Defined.

Lemma marker_permission_is_reported_witness :
  ∃ score,
    dict_get (run sample_apk) "risk_score" = Some (PInt score) ∧ 2 ≤ score.
Proof.
  destruct sample_run_returns as [Hrun _].
  destruct (marker_permission_is_reported ascii_alnum sample_apk
              (run sample_apk)
              (py <$> [ "android.permission.INTERNET";
                        "android.permission.CAMERA";
                        "android.permission.SEND_SMS";
                        "android.permission.CAMERA";
                        "android.permission.SYSTEM_ALERT_WINDOW" ]%string)
              (py "android.permission.SYSTEM_ALERT_WINDOW") Hrun eq_refl)
    as (dangerous & reasons & score & _ & _ & _ & _ & _ & Hs & Hle).
  - refine (bool_decide_unpack _ _). vm_compute. exact I.
  - left. exists []. vm_compute. reflexivity.
  - exists score. split; [exact Hs|exact Hle].
Defined.

Lemma result_key_lists_witness :
  dict_get (run sample_apk) "error" = None.
Proof.
  destruct sample_run_returns as [Hrun Hok].
  destruct (result_key_lists ascii_alnum true (Ret sample_apk)
              (run sample_apk) Hrun)
    as [(_ & Hfalse & _)|(_ & _ & Herr & _)].
  - rewrite Hok in Hfalse. discriminate.
  - exact Herr.
Defined.

Lemma certificates_whole_chain_or_empty_witness :
  ∃ entries,
    certificates_of sample_apk = PList entries ∧ length entries = 2%nat.
Proof.
  destruct (certificates_whole_chain_or_empty sample_apk _ eq_refl)
    as [(entries & He & Hf & _)|[He _]].
  - exists entries. split; [exact He|].
    apply Forall2_length in Hf. symmetry. exact Hf.
  - vm_compute in He. discriminate.
Defined.

Lemma to_jsonable_returns_on_plain_witness :
  ∃ j,
    to_jsonable ascii_decode
      (PList [PInt 1; PBytes [104; 105]%N;
              PDict (str_items [(py "a", PSet [PNone; PPath (py "/x")])])])
    = Ret j
    ∧ jsonable j.
Proof.
  apply (to_jsonable_returns_on_plain ascii_decode).
  apply plain_list.
  constructor; [apply plain_int|].
  constructor; [apply plain_bytes|].
  constructor; [|constructor].
  apply (plain_dict [(py "a", PSet [PNone; PPath (py "/x")])]).
  constructor; [|constructor].
  apply plain_set.
  constructor; [apply plain_none|].
  constructor; [apply plain_path|constructor].
Defined.

Lemma to_jsonable_dict_entrywise_witness :
  to_jsonable ascii_decode
    (PDict (str_items [(py "a", PInt 1); (py "b", PPath (py "/x"))]))
  = Ret (PDict (str_items [(py "a", PInt 1); (py "b", PStr (py "/x"))])).
Proof.
  apply (to_jsonable_dict_entrywise ascii_decode
           [(py "a", PInt 1); (py "b", PPath (py "/x"))]).
  - refine (bool_decide_unpack _ _). vm_compute. exact I.
  - exists [(py "a", PInt 1); (py "b", PStr (py "/x"))].
    split; [reflexivity|].
    constructor; [split; reflexivity|].
    constructor; [split; reflexivity|constructor].
Defined.

Lemma to_jsonable_last_key_wins_witness :
  ∃ out v',
    PDict [(KStr (py "1"), PInt 2); (KStr (py "o"), PNone)] = PDict out
    ∧ to_jsonable ascii_decode (PInt 2) = Ret v'
    ∧ items_get out (py "1") = Some v'.
Proof.
  apply (to_jsonable_last_key_wins ascii_decode
           [(KStr (py "1"), PInt 1)]
           (KObj {| obj_str := Ret (py "1"); obj_repr := Ret (py "one");
                    obj_bool := Ret true |})
           (PInt 2) [(KStr (py "o"), PNone)] (py "1")).
  - vm_compute. reflexivity.
  - reflexivity.
  - constructor; [|constructor].
    vm_compute. intros H. discriminate H.
Defined.


Lemma demo_upload_returns :
  filename demo_file = Some demo_name
  ∧ demo_name ≠ []
  ∧ allowed_file ascii_lower demo_name = Ret true
  ∧ demo_upload true (λ _, Ret sample_apk) (Some demo_file)
    = Ret (demo_body, 200).
Proof.
  split; [reflexivity|]. split; [discriminate|].
  split; vm_compute; reflexivity.
Defined.

Lemma upload_outcomes_witness :
  jsonable demo_body
  ∧ dict_get demo_body "filename" = Some (PStr (py "MyApp.APK")).
Proof.
  destruct demo_upload_returns as (_ & _ & _ & Hup).
  destruct (upload_outcomes _ _ _ _ _ _ _ _ _ _ _ _ _ _ _ _ Hup)
    as [(Hs & _)|[(Hs & _)|[(Hs & _)|(_ & _ & Hj & _)]]];
    [discriminate Hs|discriminate Hs|discriminate Hs|].
  split; [exact Hj|]. vm_compute. reflexivity.
Defined.

Lemma upload_keeps_analysis_witness :
  ∃ v', dict_get demo_body "risk_label" = Some v'
        ∧ to_jsonable ascii_decode (PStr (py "Medium")) = Ret v'.
Proof.
  destruct demo_upload_returns as (Hname & Hne & Ha & Hup).
  apply (upload_keeps_analysis _ _ _ _ _ _ _ _ _ _ _ _ _ demo_file demo_name
           demo_body 200 (run sample_apk) "risk_label" (PStr (py "Medium"))
           Hname Hne Ha Hup).
  - vm_compute. reflexivity.
  - vm_compute. reflexivity.
Defined.

Lemma upload_sha256_best_effort_witness :
  dict_get demo_body "sha256" = Some (PStr demo_content).
Proof.
  destruct demo_upload_returns as (Hname & Hne & Ha & Hup).
  rewrite (upload_sha256_best_effort _ _ _ _ _ _ _ _ _ _ _ _ _ demo_file
             demo_name demo_body 200 Hname Hne Ha Hup).
  vm_compute. reflexivity.
Defined.

Lemma upload_parse_failure_is_200_witness :
  ∃ body,
    demo_upload true (λ _, Raise (py "File is not a zip file"))
      (Some demo_file) = Ret (body, 200)
    ∧ dict_get body "ok" = Some (PBool false)
    ∧ dict_get body "error"
      = Some (PStr (py "Failed to parse APK: File is not a zip file")).
Proof.
  destruct demo_upload_returns as (Hname & Hne & Ha & _).
  eexists. split.
  - apply (upload_parse_failure_is_200 ascii_alnum ascii_decode ascii_lower
             (list N) [] demo_update demo_hexdigest demo_open_rb
             demo_secure_filename (py "20240101_000000_000000") (py "uploads")
             true (λ _, Raise (py "File is not a zip file")) demo_file
             demo_name (py "File is not a zip file") Hname Hne Ha);
      reflexivity.
  - split; vm_compute; reflexivity.
Defined.

Lemma upload_unhandled_failures_witness :
  demo_upload true (λ _, Ret apk_app_name_raises) (Some demo_file)
  = Raise (py "resources.arsc is damaged").
Proof.
  destruct demo_upload_returns as (Hname & Hne & Ha & _).
  apply (upload_unhandled_failures ascii_alnum ascii_decode ascii_lower
           (list N) [] demo_update demo_hexdigest demo_open_rb
           demo_secure_filename (py "20240101_000000_000000") (py "uploads")
           true (λ _, Ret apk_app_name_raises) demo_file demo_name
           (py "resources.arsc is damaged") Hname Hne Ha).
  right. split; [reflexivity|]. split; [reflexivity|].
  exists apk_app_name_raises. split; [reflexivity|].
  right. left. exists (PStr (py "com.example.app")).
  split; reflexivity.
Defined.
